(** * arctic-spa-dc: wire frames, stream decoding and the client session

    A shallow embedding of [packet.py], [bytebuffer.py], [client.py], the
    [connect] operation of [arctic_spa_client.py] and the [udp_probe] of
    [discovery.py].

    - byte strings are [list byte]; Python integers are [Z];
    - a raised exception is the [Raise] case of [result];
    - [io.BytesIO] is a byte list with a cursor;
    - the [dict] built by [_poll_messages] is a [gmap], the de-duplicated
      request set a [gset];
    - the socket, the clock and the protobuf runtime are the environment:
      they appear as functions the definitions take as arguments. *)

From Stdlib Require Import ZArith List Strings.Byte Bool Lia String.
From Stdlib Require PrimFloat.
From stdpp Require Import base option list gmap sets strings.
Import ListNotations.

Local Open Scope Z_scope.

(** ** Exceptions and results *)

Inductive exception : Type :=
| StructError            (* struct.error: value does not fit the format *)
| DecodeError_TooShort   (* DecodeError('Expecting at least 20 bytes, ...') *)
| DecodeError_Preamble   (* DecodeError('Data does not start with correct preamble') *)
| ValueError_MessageType (* MessageType(n) for n outside the enumeration *)
| ValueError_NoDecoder   (* Message.__init__ without a decoder class *)
| ProtobufDecodeError    (* raised by ParseFromString on a malformed payload *)
| ProtobufEncodeError    (* raised by setattr / SerializeToString *)
| ValueError_NoHost      (* 'No host value specified; cannot connect!' *)
| ValueError_CommandType (* 'Invalid command type ...' *)
| ValueError_TooLow      (* '... less than the minimum temperature of 59' *)
| ValueError_TooHigh     (* '... greater than the maximum temperature of 104' *)
| TypeError              (* 'Invalid type for ...' *)
| TimeoutError           (* 'Timeout waiting for messages' *)
| ConnectionError.       (* 'No open connection' *)

(* what running a piece of code gives: a value, an exception, or, for the
   loops run with a bound on their iterations, the bound reached *)
Inductive result (A : Type) : Type :=
| Ok (a : A)
| Raise (e : exception)
| OutOfFuel.
Arguments Ok {A} a.
Arguments Raise {A} e.
Arguments OutOfFuel {A}.

Definition bind {A B : Type} (r : result A) (k : A -> result B) : result B :=
  match r with
  | Ok a => k a
  | Raise e => Raise e
  | OutOfFuel => OutOfFuel
  end.

Notation "'let!' x := r 'in' k" := (bind r (fun x => k))
  (at level 10, x name, r at level 100, k at level 200, only parsing).

Definition bytes : Type := list byte.

Definition len (b : bytes) : Z := Z.of_nat (length b).

(** ** [struct.pack] / [struct.unpack], big-endian *)

Definition byte_of_Z (z : Z) : byte :=
  match Byte.of_N (Z.to_N (z mod 256)) with
  | Some b => b
  | None => x00
  end.

Definition Z_of_byte (b : byte) : Z := Z.of_N (Byte.to_N b).

Definition be16 (v : Z) : bytes :=
  [byte_of_Z (Z.shiftr v 8); byte_of_Z v].

Definition be32 (v : Z) : bytes :=
  [byte_of_Z (Z.shiftr v 24); byte_of_Z (Z.shiftr v 16);
   byte_of_Z (Z.shiftr v 8); byte_of_Z v].

(* struct.pack('>h', value) *)
Definition pack_h (value : Z) : result bytes :=
  if (-32768 <=? value) && (value <=? 32767) then Ok (be16 value)
  else Raise StructError.

(* struct.pack('>i', value) *)
Definition pack_i (value : Z) : result bytes :=
  if (-2147483648 <=? value) && (value <=? 2147483647) then Ok (be32 value)
  else Raise StructError.

(* struct.pack('>I', value) *)
Definition pack_I (value : Z) : result bytes :=
  if (0 <=? value) && (value <=? 4294967295) then Ok (be32 value)
  else Raise StructError.

Definition unpack_H (b1 b0 : byte) : Z := Z_of_byte b1 * 256 + Z_of_byte b0.

Definition unpack_I (b3 b2 b1 b0 : byte) : Z :=
  ((Z_of_byte b3 * 256 + Z_of_byte b2) * 256 + Z_of_byte b1) * 256 + Z_of_byte b0.

(** ** [zlib.crc32]: the reflected CRC-32, polynomial 0xEDB88320 *)

Definition crc_shift (c : Z) : Z :=
  if Z.testbit c 0 then Z.lxor (Z.shiftr c 1) 0xEDB88320 else Z.shiftr c 1.

Definition crc_update (c : Z) (b : byte) : Z :=
  Nat.iter 8 crc_shift (Z.lxor c (Z_of_byte b)).

Definition crc32 (data : bytes) : Z :=
  Z.lxor (fold_left crc_update data 0xFFFFFFFF) 0xFFFFFFFF.

(** ** [io.BytesIO] *)

Record BytesIO : Type := mkBytesIO { getvalue : bytes; tell : nat }.

Definition seek (s : BytesIO) (p : nat) : BytesIO :=
  {| getvalue := getvalue s; tell := p |}.

(* write at the cursor: overwrite, extend, zero-fill a gap past the end *)
Definition write (s : BytesIO) (b : bytes) : BytesIO :=
  match b with
  | [] => s
  | _ =>
      let padded := getvalue s ++ repeat x00 (tell s - length (getvalue s)) in
      {| getvalue := firstn (tell s) padded ++ b
                     ++ skipn (tell s + length b) padded;
         tell := (tell s + length b)%nat |}
  end.

(* read(size): the bytes from the cursor, at most size of them; the cursor
   moves past what was read *)
Definition read (s : BytesIO) (size : nat) : bytes * BytesIO :=
  let b := firstn size (skipn (tell s) (getvalue s)) in
  (b, {| getvalue := getvalue s; tell := (tell s + length b)%nat |}).

(* read(): everything from the cursor on *)
Definition read_all (s : BytesIO) : bytes * BytesIO :=
  let b := skipn (tell s) (getvalue s) in
  (b, {| getvalue := getvalue s; tell := (tell s + length b)%nat |}).

(* truncate(size): drops the bytes from size on, the cursor stays *)
Definition truncate (s : BytesIO) (size : nat) : BytesIO :=
  {| getvalue := firstn size (getvalue s); tell := tell s |}.

(* BytesIO(initial_bytes) *)
Definition BytesIO_init (initial_bytes : bytes) : BytesIO :=
  {| getvalue := initial_bytes; tell := 0%nat |}.

(* the two's complement reading of an unsigned w-bit value *)
Definition signed (w : Z) (u : Z) : Z :=
  if u <? 2 ^ (w - 1) then u else u - 2 ^ w.

(* struct.unpack('>h', b)[0] *)
Definition unpack_h (b : bytes) : result Z :=
  match b with
  | [b1; b0] => Ok (signed 16 (unpack_H b1 b0))
  | _ => Raise StructError
  end.

(* struct.unpack('>i', b)[0] *)
Definition unpack_i (b : bytes) : result Z :=
  match b with
  | [b3; b2; b1; b0] => Ok (signed 32 (unpack_I b3 b2 b1 b0))
  | _ => Raise StructError
  end.

(** ** bytebuffer.py *)

Module bytebuffer.

Inductive buffer_mode : Type := mode_write | mode_read.

Record ByteBuffer : Type := mkByteBuffer {
  stream : BytesIO;
  capacity : Z;
  mode : buffer_mode
}.

Definition ByteBuffer_init (capacity : Z) : ByteBuffer :=
  {| stream := {| getvalue := []; tell := 0%nat |};
     capacity := capacity;
     mode := mode_write |}.

Definition allocate (capacity : Z) : ByteBuffer := ByteBuffer_init capacity.

Definition with_stream (b : ByteBuffer) (s : BytesIO) : ByteBuffer :=
  {| stream := s; capacity := capacity b; mode := mode b |}.

Definition put_short (b : ByteBuffer) (value : Z) : result ByteBuffer :=
  let! packed := pack_h value in
  Ok (with_stream b (write (stream b) packed)).

Definition put_int (b : ByteBuffer) (value : Z) : result ByteBuffer :=
  let! packed := pack_i value in
  Ok (with_stream b (write (stream b) packed)).

Definition put_bytes (b : ByteBuffer) (value : bytes) : ByteBuffer :=
  with_stream b (write (stream b) value).

Definition put_int_at (b : ByteBuffer) (index : nat) (value : Z)
  : result ByteBuffer :=
  let current_position := tell (stream b) in
  let s := seek (stream b) index in
  let! packed := pack_I value in
  let s := write s packed in
  Ok (with_stream b (seek s current_position)).

Definition get_stream (b : ByteBuffer) : BytesIO := stream b.


Definition allocate_direct (capacity : Z) : ByteBuffer := allocate capacity.

Definition flip (b : ByteBuffer) : ByteBuffer :=
  {| stream := seek (stream b) 0; capacity := capacity b; mode := mode_read |}.

Definition clear (b : ByteBuffer) : ByteBuffer :=
  {| stream := truncate (seek (stream b) 0) 0;
     capacity := capacity b;
     mode := mode_write |}.

Definition compact (b : ByteBuffer) : ByteBuffer :=
  let remaining := fst (read_all (stream b)) in
  {| stream := BytesIO_init remaining;
     capacity := capacity b;
     mode := mode_write |}.

(* the readers return the buffer too: the cursor has moved even when
   unpack raises *)
Definition get_short (b : ByteBuffer) : ByteBuffer * result Z :=
  let '(got, s) := read (stream b) 2 in
  (with_stream b s, unpack_h got).

Definition get_int (b : ByteBuffer) : ByteBuffer * result Z :=
  let '(got, s) := read (stream b) 4 in
  (with_stream b s, unpack_i got).

Definition get_bytes (b : ByteBuffer) (length : nat) : ByteBuffer * bytes :=
  let '(got, s) := read (stream b) length in
  (with_stream b s, got).

Definition put_short_at (b : ByteBuffer) (index : nat) (value : Z)
  : result ByteBuffer :=
  let current_position := tell (stream b) in
  let s := seek (stream b) index in
  let! packed := pack_h value in
  let s := write s packed in
  Ok (with_stream b (seek s current_position)).

Definition get_capacity (b : ByteBuffer) : Z := capacity b.

End bytebuffer.

(** ** packet.py *)

Module packet.
Import bytebuffer.

Record Packet : Type := mkPacket {
  sequence_number : Z;
  optional : Z;
  type : Z;
  size : Z;
  payload : bytes;
  checksum : Z
}.

(* "if payload": None and the empty byte string are both falsy *)
Definition truthy_bytes (payload : option bytes) : bool :=
  match payload with
  | Some (_ :: _) => true
  | _ => false
  end.

Definition Packet_init (packet_type : Z) (payload : option bytes) : Packet :=
  {| sequence_number := 0;
     optional := 0;
     type := packet_type;
     size := if truthy_bytes payload then len (default [] payload) else 0;
     payload := if truthy_bytes payload then default [] payload else [];
     checksum := 0 |}.

Definition set_sequence_number (p : Packet) (n : Z) : Packet :=
  {| sequence_number := n; optional := optional p; type := type p;
     size := size p; payload := payload p; checksum := checksum p |}.

Definition set_checksum (p : Packet) (c : Z) : Packet :=
  {| sequence_number := sequence_number p; optional := optional p;
     type := type p; size := size p; payload := payload p; checksum := c |}.

Definition checksum_valid (p : Packet) : result bool :=
  let buffer := allocate (len (payload p) + 20) in
  let! buffer := put_int buffer (-1414717974) in
  let! buffer := put_int buffer 0 in
  let! buffer := put_int buffer (sequence_number p) in
  let! buffer := put_int buffer (optional p) in
  let! buffer := put_short buffer (type p) in
  let! buffer := put_short buffer (size p) in
  let buffer := put_bytes buffer (payload p) in
  let crc32 := crc32 (getvalue (get_stream buffer)) in
  if Z.land (-1) crc32 =? crc32 then Ok true else Ok false.

(* returns the packet with its checksum attribute updated, and the bytes *)
Definition serialize (p : Packet) : result (Packet * bytes) :=
  let buffer := allocate (size p + 20) in
  let! buffer := put_int buffer (-1414718150) in
  let! buffer := put_int buffer 0 in
  let! buffer := put_int buffer (sequence_number p) in
  let! buffer := put_int buffer (optional p) in
  let! buffer := put_short buffer (type p) in
  let! buffer := put_short buffer (size p) in
  let buffer := put_bytes buffer (payload p) in
  let crc32 := crc32 (getvalue (get_stream buffer)) in
  let p := set_checksum p crc32 in
  let! buffer := put_int_at buffer 4 (checksum p) in
  Ok (p, getvalue (get_stream buffer)).

End packet.

(** ** The [MessageType] enumeration (the same in both client files) *)

Inductive MessageType : Type :=
| LIVE | COMMAND | SETTINGS | CONFIGURATION | PEAK | CLOCK | INFORMATION
| ERROR | FIRMWARE | ROUTER | HEARTBEAT | FILTERS | PERIPHERAL
| ONZEN_LIVE | ONZEN_COMMAND | ONZEN_SETTINGS
| MOBILE_AUTHENTICATE | MOBILE_SPA | MOBILE_AVAILABLE_SPAS
| MOBILE_ASSOCIATE_ACK | MOBILE_SPA_REGISTRATION | MOBILE_WIFI_DETAILS
| lpc_live | lpc_command | lpc_info | lpc_config | lpc_preferences
| lpc_lights | lpc_schedule | lpc_peak_devices | lpc_clock | lpc_error
| lpc_measurements | lpc_diagnostic_command | lpc_power
| lpc_enabled_devices | reset | lpc_android_topside_info
| firmware_success | firmware_failure | firmware_started.

(* message_type.value *)
Definition value (m : MessageType) : Z :=
  match m with
  | LIVE => 0 | COMMAND => 1 | SETTINGS => 2 | CONFIGURATION => 3
  | PEAK => 4 | CLOCK => 5 | INFORMATION => 6 | ERROR => 7
  | FIRMWARE => 8 | ROUTER => 9 | HEARTBEAT => 10 | FILTERS => 13
  | PERIPHERAL => 16 | ONZEN_LIVE => 48 | ONZEN_COMMAND => 49
  | ONZEN_SETTINGS => 50 | MOBILE_AUTHENTICATE => 80 | MOBILE_SPA => 81
  | MOBILE_AVAILABLE_SPAS => 82 | MOBILE_ASSOCIATE_ACK => 83
  | MOBILE_SPA_REGISTRATION => 84 | MOBILE_WIFI_DETAILS => 85
  | lpc_live => 112 | lpc_command => 113 | lpc_info => 114
  | lpc_config => 115 | lpc_preferences => 116 | lpc_lights => 117
  | lpc_schedule => 118 | lpc_peak_devices => 119 | lpc_clock => 120
  | lpc_error => 121 | lpc_measurements => 122
  | lpc_diagnostic_command => 123 | lpc_power => 124
  | lpc_enabled_devices => 125 | reset => 127
  | lpc_android_topside_info => 144 | firmware_success => 194
  | firmware_failure => 195 | firmware_started => 196
  end.

Definition all_message_types : list MessageType :=
  [LIVE; COMMAND; SETTINGS; CONFIGURATION; PEAK; CLOCK; INFORMATION; ERROR;
   FIRMWARE; ROUTER; HEARTBEAT; FILTERS; PERIPHERAL; ONZEN_LIVE;
   ONZEN_COMMAND; ONZEN_SETTINGS; MOBILE_AUTHENTICATE; MOBILE_SPA;
   MOBILE_AVAILABLE_SPAS; MOBILE_ASSOCIATE_ACK; MOBILE_SPA_REGISTRATION;
   MOBILE_WIFI_DETAILS; lpc_live; lpc_command; lpc_info; lpc_config;
   lpc_preferences; lpc_lights; lpc_schedule; lpc_peak_devices; lpc_clock;
   lpc_error; lpc_measurements; lpc_diagnostic_command; lpc_power;
   lpc_enabled_devices; reset; lpc_android_topside_info; firmware_success;
   firmware_failure; firmware_started].

Definition MessageType_of_value (n : Z) : option MessageType :=
  find (fun m => value m =? n) all_message_types.

(* MessageType(n): the member whose value is n, ValueError when there is none *)
Definition MessageType_call (n : Z) : result MessageType :=
  match MessageType_of_value n with
  | Some m => Ok m
  | None => Raise ValueError_MessageType
  end.

(* IntEnum members compare and hash as their values *)
Definition MessageType_eqb (a b : MessageType) : bool := value a =? value b.

#[global] Instance MessageType_eq_dec : EqDecision MessageType.
Proof. solve_decision. Defined.

#[global] Instance MessageType_countable : Countable MessageType :=
  inj_countable value MessageType_of_value
    ltac:(intros []; reflexivity).

(* bytes == bytes *)
Fixpoint bytes_eqb (a b : bytes) : bool :=
  match a, b with
  | [], [] => true
  | x :: a', y :: b' => Byte.eqb x y && bytes_eqb a' b'
  | _, _ => false
  end.

(* data[lo:hi] and data[lo:] for non-negative bounds *)
Definition slice (data : bytes) (lo hi : nat) : bytes :=
  firstn (hi - lo) (skipn lo data).

Definition slice_from (data : bytes) (lo : nat) : bytes := skipn lo data.

(** ** client.py: messages and the protocol decoder *)

Module client.

(* the generated protobuf classes the registry names *)
Inductive pb_class : Type :=
| Live_pb2_Live | Command_pb2_Command | Settings_pb2_Settings
| Configuration_pb2_Configuration | Peak_pb2_Peak | Clock_pb2_Clock
| Information_pb2_Information | Error_pb2_Error | Router_pb2_Router
| Filter_pb2_Filter | Peripheral_pb2_Peripheral | OnzenLive_pb2_OnzenLive
| OnzenSettings_pb2_OnzenSettings
| MobileAuthenticate_pb2_MobileAuthenticate
| MobileAvailableSpas_pb2_MobileAvailableSpas
| MobileSpaRegistration_pb2_MobileSpaRegistration
| MobileWifiDetails_pb2_MobileWifiDetails
| Lpc_pb2_lpc_live | Lpc_pb2_lpc_command | Lpc_pb2_lpc_info
| Lpc_pb2_lpc_config | Lpc_pb2_lpc_preferences | Lpc_pb2_lpc_lights
| Lpc_pb2_lpc_schedule | Lpc_pb2_lpc_peak_devices | Lpc_pb2_lpc_clock
| Lpc_pb2_lpc_error | Lpc_pb2_lpc_measurements
| Lpc_pb2_lpc_diagnostic_command | Lpc_pb2_lpc_power.

(* Message.MESSAGE_TYPE_DECODERS.get *)
Definition MESSAGE_TYPE_DECODERS (m : MessageType) : option pb_class :=
  match m with
  | LIVE => Some Live_pb2_Live
  | COMMAND => Some Command_pb2_Command
  | SETTINGS => Some Settings_pb2_Settings
  | CONFIGURATION => Some Configuration_pb2_Configuration
  | PEAK => Some Peak_pb2_Peak
  | CLOCK => Some Clock_pb2_Clock
  | INFORMATION => Some Information_pb2_Information
  | ERROR => Some Error_pb2_Error
  | ROUTER => Some Router_pb2_Router
  | FILTERS => Some Filter_pb2_Filter
  | PERIPHERAL => Some Peripheral_pb2_Peripheral
  | ONZEN_LIVE => Some OnzenLive_pb2_OnzenLive
  | ONZEN_SETTINGS => Some OnzenSettings_pb2_OnzenSettings
  | MOBILE_AUTHENTICATE => Some MobileAuthenticate_pb2_MobileAuthenticate
  | MOBILE_AVAILABLE_SPAS => Some MobileAvailableSpas_pb2_MobileAvailableSpas
  | MOBILE_SPA_REGISTRATION => Some MobileSpaRegistration_pb2_MobileSpaRegistration
  | MOBILE_WIFI_DETAILS => Some MobileWifiDetails_pb2_MobileWifiDetails
  | lpc_live => Some Lpc_pb2_lpc_live
  | lpc_command => Some Lpc_pb2_lpc_command
  | lpc_info => Some Lpc_pb2_lpc_info
  | lpc_config => Some Lpc_pb2_lpc_config
  | lpc_preferences => Some Lpc_pb2_lpc_preferences
  | lpc_lights => Some Lpc_pb2_lpc_lights
  | lpc_schedule => Some Lpc_pb2_lpc_schedule
  | lpc_peak_devices => Some Lpc_pb2_lpc_peak_devices
  | lpc_clock => Some Lpc_pb2_lpc_clock
  | lpc_error => Some Lpc_pb2_lpc_error
  | lpc_measurements => Some Lpc_pb2_lpc_measurements
  | lpc_diagnostic_command => Some Lpc_pb2_lpc_diagnostic_command
  | lpc_power => Some Lpc_pb2_lpc_power
  | _ => None
  end.

(* message_type in Message.MESSAGE_TYPE_DECODERS *)
Definition has_decoder (m : MessageType) : bool :=
  match MESSAGE_TYPE_DECODERS m with
  | Some _ => true
  | None => false
  end.

Record Message (Data : Type) : Type := mkMessage {
  decoder : pb_class;
  message_type : MessageType;
  counter : Z;
  checksum : bytes;
  payload : bytes;
  data : Data
}.
Arguments mkMessage {Data}.
Arguments decoder {Data}.
Arguments message_type {Data}.
Arguments counter {Data}.
Arguments checksum {Data}.
Arguments payload {Data}.
Arguments data {Data}.

(* struct.unpack('!xxxxBBBBIIHH', ...): the tuple header[0..7] *)
Record header : Type := mkHeader {
  header_0 : byte; header_1 : byte; header_2 : byte; header_3 : byte;
  header_4 : Z; header_5 : Z; header_6 : Z; header_7 : Z
}.

Definition unpack_header (b : bytes) : result header :=
  match b with
  | [_; _; _; _; c0; c1; c2; c3; s3; s2; s1; s0; o3; o2; o1; o0;
     t1; t0; l1; l0] =>
      Ok {| header_0 := c0; header_1 := c1; header_2 := c2; header_3 := c3;
            header_4 := unpack_I s3 s2 s1 s0;
            header_5 := unpack_I o3 o2 o1 o0;
            header_6 := unpack_H t1 t0;
            header_7 := unpack_H l1 l0 |}
  | _ => Raise StructError
  end.

Definition HEADER_SIZE : nat := 20.
Definition PREAMBLE : bytes := [xab; xad; x1d; x3a].

Section protocol.

(* The payload schemas are generated code outside the package sources:
   [ParseFromString cls payload] is the parsed value, [None] when the protobuf
   runtime raises DecodeError. *)
Context {Data : Type}.
Variable ParseFromString : pb_class -> bytes -> option Data.

(* Message.__init__ *)
Definition Message_init (message_type : MessageType) (counter : Z)
    (checksum payload : bytes) : result (Message Data) :=
  match MESSAGE_TYPE_DECODERS message_type with
  | None => Raise ValueError_NoDecoder
  | Some decoder =>
      match ParseFromString decoder payload with
      | None => Raise ProtobufDecodeError
      | Some data =>
          Ok {| decoder := decoder; message_type := message_type;
                counter := counter; checksum := checksum;
                payload := payload; data := data |}
      end
  end.

(* ArcticSpaProtocol.decode_one *)
Definition decode_one (data : bytes)
  : result (option (Message Data) * bytes) :=
  if len data <? Z.of_nat HEADER_SIZE then Raise DecodeError_TooShort
  else if negb (bytes_eqb (slice data 0 4) PREAMBLE)
  then Raise DecodeError_Preamble
  else
    let! header := unpack_header (slice data 0 HEADER_SIZE) in
    let! message_type := MessageType_call (header_6 header) in
    let length := Z.to_nat (header_7 header) in
    let payload := slice data HEADER_SIZE (HEADER_SIZE + length) in
    let! message :=
      if negb (MessageType_eqb message_type HEARTBEAT) then
        let checksum := [header_0 header; header_1 header;
                         header_2 header; header_3 header] in
        let counter := header_4 header in
        if has_decoder message_type then
          let! m := Message_init message_type counter checksum payload in
          Ok (Some m)
        else Ok None
      else Ok None in
    let remainder := slice_from data (HEADER_SIZE + length) in
    Ok (message, remainder).

(* the while loop of ArcticSpaProtocol.decode *)
Fixpoint decode_loop (fuel : nat) (to_decode : bytes)
    (messages : list (option (Message Data)))
  : result (list (option (Message Data))) :=
  if len to_decode >? 0 then
    match fuel with
    | O => OutOfFuel
    | S fuel' =>
        let! r := decode_one to_decode in
        let '(message, remainder) := r in
        decode_loop fuel' remainder (messages ++ [message])
    end
  else Ok messages.

(* ArcticSpaProtocol.decode: every iteration consumes a header, so the
   length of the data bounds the iterations *)
Definition decode (data : bytes) : result (list (option (Message Data))) :=
  decode_loop (length data) data [].

End protocol.

(** *** Commands *)

Inductive CommandType : Type :=
| TEMPERATURE_SETPOINT_FAHRENHEIT
| PUMP_1 | PUMP_2 | PUMP_3 | PUMP_4 | PUMP_5 | BLOWER_1 | BLOWER_2
| LIGHTS | STEREO | FILTER | ONZEN | OZONE | EXHAUST_FAN
| SAUNA_STATE | SAUNA_TIME_LEFT
| ALL_ON | FOGGER | SPABOY_BOOST | PACK_RESET | LOG_DUMP | SDS | YESS.

(* command_type.value *)
Definition CommandType_value (c : CommandType) : string :=
  match c with
  | TEMPERATURE_SETPOINT_FAHRENHEIT => "set_temperature_setpoint_fahrenheit"
  | PUMP_1 => "set_pump_1" | PUMP_2 => "set_pump_2" | PUMP_3 => "set_pump_3"
  | PUMP_4 => "set_pump_4" | PUMP_5 => "set_pump_5"
  | BLOWER_1 => "set_blower_1" | BLOWER_2 => "set_blower_2"
  | LIGHTS => "set_lights" | STEREO => "set_stereo" | FILTER => "set_filter"
  | ONZEN => "set_onzen" | OZONE => "set_ozone"
  | EXHAUST_FAN => "set_exhaust_fan" | SAUNA_STATE => "set_sauna_state"
  | SAUNA_TIME_LEFT => "set_sauna_time_left" | ALL_ON => "set_all_on"
  | FOGGER => "set_fogger" | SPABOY_BOOST => "set_spaboy_boost"
  | PACK_RESET => "set_pack_reset" | LOG_DUMP => "set_log_dump"
  | SDS => "set_sds" | YESS => "set_yess"
  end%string.

Inductive PumpStatus : Type := PUMP_OFF | PUMP_LOW | PUMP_HIGH.

Inductive SaunaState : Type :=
| SAUNA_IDLE | SAUNA_TIMER | SAUNA_PRESET_A | SAUNA_PRESET_B | SAUNA_PRESET_C.

Definition PumpStatus_value (p : PumpStatus) : Z :=
  match p with PUMP_OFF => 0 | PUMP_LOW => 1 | PUMP_HIGH => 2 end.

Definition SaunaState_value (s : SaunaState) : Z :=
  match s with
  | SAUNA_IDLE => 0 | SAUNA_TIMER => 1 | SAUNA_PRESET_A => 2
  | SAUNA_PRESET_B => 3 | SAUNA_PRESET_C => 4
  end.

(* the values write_command is declared to take:
   int | bool | PumpStatus | SaunaState *)
Inductive py_value : Type :=
| py_int (n : Z)
| py_bool (b : bool)
| py_PumpStatus (p : PumpStatus)
| py_SaunaState (s : SaunaState).

Inductive value_class : Type :=
| class_int | class_bool | class_PumpStatus | class_SaunaState.

(* isinstance: bool and the IntEnum classes are subclasses of int *)
Definition isinstance (v : py_value) (c : value_class) : bool :=
  match c, v with
  | class_int, _ => true
  | class_bool, py_bool _ => true
  | class_PumpStatus, py_PumpStatus _ => true
  | class_SaunaState, py_SaunaState _ => true
  | _, _ => false
  end.

(* the integer a value compares as *)
Definition as_int (v : py_value) : Z :=
  match v with
  | py_int n => n
  | py_bool b => if b then 1 else 0
  | py_PumpStatus p => PumpStatus_value p
  | py_SaunaState s => SaunaState_value s
  end.

Definition MIN_TEMPERATURE : Z := 59.
Definition MAX_TEMPERATURE : Z := 104.

(* command_type_value_class.get *)
Definition command_type_value_class (c : CommandType) : option value_class :=
  match c with
  | TEMPERATURE_SETPOINT_FAHRENHEIT => Some class_int
  | PUMP_1 | PUMP_2 | PUMP_3 | PUMP_4 | PUMP_5 => Some class_PumpStatus
  | BLOWER_1 | BLOWER_2 => Some class_PumpStatus
  | LIGHTS | STEREO | FILTER | ONZEN | OZONE | EXHAUST_FAN => Some class_bool
  | SAUNA_STATE => Some class_SaunaState
  | SAUNA_TIME_LEFT => Some class_int
  | ALL_ON | FOGGER | SPABOY_BOOST | PACK_RESET | LOG_DUMP | SDS | YESS =>
      Some class_bool
  end.

Definition is_temperature (c : CommandType) : bool :=
  match c with TEMPERATURE_SETPOINT_FAHRENHEIT => true | _ => false end.

(* ArcticSpaClient._validate_command *)
Definition _validate_command (command_type : CommandType)
    (command_value : py_value) : result (string * py_value) :=
  match command_type_value_class command_type with
  | None => Raise ValueError_CommandType
  | Some value_class =>
      if negb (isinstance command_value value_class) then Raise TypeError
      else
        let! in_range :=
          if is_temperature command_type then
            if as_int command_value <? MIN_TEMPERATURE
            then Raise ValueError_TooLow
            else if as_int command_value >? MAX_TEMPERATURE
            then Raise ValueError_TooHigh
            else Ok tt
          else Ok tt in
        let property_name := CommandType_value command_type in
        let raw_value := command_value in
        let raw_value :=
          if negb (isinstance raw_value class_int
                   || isinstance raw_value class_bool)
          then py_int (as_int command_value)
          else raw_value in
        Ok (property_name, raw_value)
  end.

(** *** The session *)

(* what socket.create_connection does on one call: it returns a socket,
   raises socket.timeout, or raises another OSError *)
Inductive dial : Type := dial_ok | dial_timeout | dial_refused.

(* what was done on a socket, in order *)
Inductive io : Type :=
| io_sendall (b : bytes)
| io_recv.

(* a connected socket: the call of create_connection that opened it, the
   sendall and recv calls made on it so far, the number of its recv calls *)
Record socket : Type := mkSocket {
  opened_by : nat;
  trace : list io;
  recv_calls : nat
}.

Record ArcticSpaClient : Type := mkClient {
  host : option string;
  port : Z;
  _conn : option socket
}.

Definition set_conn (self : ArcticSpaClient) (c : option socket)
  : ArcticSpaClient :=
  {| host := host self; port := port self; _conn := c |}.

Definition set_host (self : ArcticSpaClient) (h : option string)
  : ArcticSpaClient :=
  {| host := h; port := port self; _conn := _conn self |}.

Definition set_port (self : ArcticSpaClient) (p : Z) : ArcticSpaClient :=
  {| host := host self; port := p; _conn := _conn self |}.

Definition truthy_str (s : option string) : bool :=
  match s with
  | Some (String _ _) => true
  | _ => false
  end.

Definition truthy_int (n : option Z) : bool :=
  match n with
  | Some n => negb (n =? 0)
  | None => false
  end.

(* "if timeout": None and 0.0 are falsy *)
Definition truthy_float (t : option PrimFloat.float) : bool :=
  match t with
  | Some t => negb (PrimFloat.eqb t PrimFloat.zero)
  | None => false
  end.

(* ArcticSpaClient.__init__ *)
Definition ArcticSpaClient_init (host : option string) (port : option Z)
  : ArcticSpaClient :=
  {| host := host;
     port := if truthy_int port then default 0 port else 65534;
     _conn := None |}.

(* the socket is shut down and closed, errors ignored *)
Definition disconnect (self : ArcticSpaClient) : ArcticSpaClient :=
  match _conn self with
  | Some _ => set_conn self None
  | None => self
  end.

Definition is_connected (self : ArcticSpaClient) : bool :=
  match _conn self with
  | Some _ => true
  | None => false
  end.

(* how the while loop of connect is left *)
Inductive loop_exit : Type :=
| returned (b : bool)   (* a return statement inside the loop *)
| left_loop.            (* break, or the loop condition became false *)

Inductive message_types_arg : Type :=
| one_type (m : MessageType)
| type_list (l : list MessageType)     (* a list or a tuple *)
| type_set (s : gset MessageType).

(* the isinstance chain at the top of write_requested_messages and
   poll_messages *)
Definition normalize (message_types : message_types_arg) : message_types_arg :=
  match message_types with
  | one_type m => type_list [m]
  | type_list l => type_set (list_to_set l)
  | type_set s => type_set s
  end.

(* iteration over the argument *)
Definition iterate (message_types : message_types_arg) : list MessageType :=
  match message_types with
  | one_type m => [m]
  | type_list l => l
  | type_set s => elements s
  end.

(* ArcticSpaClient._get_message_type_packet_bytes *)
Definition _get_message_type_packet_bytes (message_type : MessageType)
  : result bytes :=
  let packet_type := value message_type in
  let packet := packet.Packet_init packet_type (Some []) in
  let! r := packet.serialize packet in
  Ok (snd r).

(* the for loop of write_requested_messages *)
Fixpoint command_packets (message_types : list MessageType)
    (command_packet_bytes : bytes) : result bytes :=
  match message_types with
  | [] => Ok command_packet_bytes
  | message_type :: rest =>
      let! b := _get_message_type_packet_bytes message_type in
      command_packets rest (command_packet_bytes ++ b)
  end.

Definition sendall (c : socket) (b : bytes) : socket :=
  {| opened_by := opened_by c; trace := trace c ++ [io_sendall b];
     recv_calls := recv_calls c |}.

(* ArcticSpaClient.write_requested_messages, with its assert_connected *)
Definition write_requested_messages (self : ArcticSpaClient)
    (message_types : message_types_arg) : ArcticSpaClient * result unit :=
  match _conn self with
  | None => (self, Raise ConnectionError)
  | Some conn =>
      let message_types := normalize message_types in
      match command_packets (iterate message_types) [] with
      | Ok command_packet_bytes =>
          (set_conn self (Some (sendall conn command_packet_bytes)), Ok tt)
      | Raise e => (self, Raise e)
      | OutOfFuel => (self, OutOfFuel)
      end
  end.

Section session.

Context {Data : Type}.
Variable ParseFromString : pb_class -> bytes -> option Data.

(* Command_pb2.Command() with one attribute set, serialized; None when the
   protobuf runtime rejects the assignment *)
Variable Command_SerializeToString : string -> py_value -> option bytes.

(* the environment of one run: the outcome of the n-th call of
   socket.create_connection, the bytes the n-th recv on a socket returns,
   the value of the n-th call of time.time() *)
Variable create_connection : nat -> dial.
Variable recv : nat -> bytes.
Variable time : nat -> PrimFloat.float.

(* the while loop of connect; dials counts the calls of create_connection *)
Fixpoint connect_loop (fuel : nat) (self : ArcticSpaClient) (dials : nat)
    (attempt attempts : Z) : ArcticSpaClient * nat * result loop_exit :=
  match fuel with
  | O => (self, dials, OutOfFuel)
  | S fuel' =>
      if attempt <? attempts then
        match create_connection dials with
        | dial_ok =>
            let conn := {| opened_by := dials; trace := []; recv_calls := 0 |} in
            (set_conn self (Some conn), S dials, Ok left_loop)
        | dial_timeout =>
            connect_loop fuel' self (S dials) (attempt + 1) attempts
        | dial_refused => (self, S dials, Ok (returned false))
        end
      else (self, dials, Ok left_loop)
  end.

(* ArcticSpaClient.connect *)
Definition connect (fuel : nat) (self : ArcticSpaClient) (dials : nat)
    (host : option string) (port : option Z) (attempts : Z)
  : ArcticSpaClient * nat * result bool :=
  let self := disconnect self in
  let self := if truthy_str host then set_host self host else self in
  let self := if truthy_int port then set_port self (default 0 port) else self in
  if negb (truthy_str (client.host self))
  then (self, dials, Raise ValueError_NoHost)
  else
    match connect_loop fuel self dials 0 attempts with
    | (self, dials, Ok (returned b)) => (self, dials, Ok b)
    | (self, dials, Ok left_loop) => (self, dials, Ok (is_connected self))
    | (self, dials, Raise e) => (self, dials, Raise e)
    | (self, dials, OutOfFuel) => (self, dials, OutOfFuel)
    end.

(* ArcticSpaClient.read_raw_stream_data, with its assert_connected *)
Definition read_raw_stream_data (self : ArcticSpaClient)
  : ArcticSpaClient * result bytes :=
  match _conn self with
  | None => (self, Raise ConnectionError)
  | Some conn =>
      let conn' := {| opened_by := opened_by conn;
                      trace := trace conn ++ [io_recv];
                      recv_calls := S (recv_calls conn) |} in
      (set_conn self (Some conn'), Ok (recv (recv_calls conn)))
  end.

(* ArcticSpaClient.read_messages, with its assert_connected *)
Definition read_messages (self : ArcticSpaClient)
  : ArcticSpaClient * result (list (option (Message Data))) :=
  if negb (is_connected self) then (self, Raise ConnectionError)
  else
    match read_raw_stream_data self with
    | (self, Ok data) => (self, decode ParseFromString data)
    | (self, Raise e) => (self, Raise e)
    | (self, OutOfFuel) => (self, OutOfFuel)
    end.

(* the for loop of _poll_messages over the messages of one read *)
Definition record_messages
    (requested_messages : gmap MessageType (option (Message Data)))
    (messages : list (option (Message Data)))
  : gmap MessageType (option (Message Data)) :=
  foldl (fun requested message =>
           match message with
           | Some m => <[message_type m := Some m]> requested
           | None => requested
           end) requested_messages messages.

(* None in requested_messages.values() *)
Definition None_in_values
    (requested_messages : gmap MessageType (option (Message Data))) : bool :=
  existsb (fun kv => match snd kv with None => true | Some _ => false end)
          (map_to_list requested_messages).

(* the while loop of _poll_messages; clock counts the calls of time.time() *)
Fixpoint _poll_loop (fuel : nat) (self : ArcticSpaClient) (clock : nat)
    (start : PrimFloat.float) (timeout : option PrimFloat.float)
    (requested_messages : gmap MessageType (option (Message Data)))
  : ArcticSpaClient
    * result (gmap MessageType (option (Message Data))) :=
  match fuel with
  | O => (self, OutOfFuel)
  | S fuel' =>
      let expired :=
        truthy_float timeout
        && PrimFloat.ltb (default PrimFloat.zero timeout)
                         (PrimFloat.sub (time clock) start) in
      let clock := if truthy_float timeout then S clock else clock in
      if expired then (self, Raise TimeoutError)
      else
        match read_messages self with
        | (self, Ok messages) =>
            let requested_messages :=
              record_messages requested_messages messages in
            if None_in_values requested_messages
            then _poll_loop fuel' self clock start timeout requested_messages
            else (self, Ok requested_messages)
        | (self, Raise e) => (self, Raise e)
        | (self, OutOfFuel) => (self, OutOfFuel)
        end
  end.

(* {message_type: None for message_type in message_types} *)
Definition requested_dict (message_types : list MessageType)
  : gmap MessageType (option (Message Data)) :=
  foldl (fun d message_type => <[message_type := None]> d) ∅ message_types.

(* ArcticSpaClient._poll_messages *)
Definition _poll_messages (fuel : nat) (self : ArcticSpaClient)
    (message_types : message_types_arg) (timeout : option PrimFloat.float)
  : ArcticSpaClient
    * result (gmap MessageType (option (Message Data))) :=
  let start := time 0 in
  let requested_messages := requested_dict (iterate message_types) in
  _poll_loop fuel self 1 start timeout requested_messages.

(* ArcticSpaClient.poll_messages, with its assert_connected *)
Definition poll_messages (fuel : nat) (self : ArcticSpaClient)
    (message_types : message_types_arg) (timeout : option PrimFloat.float)
  : ArcticSpaClient
    * result (gmap MessageType (option (Message Data))) :=
  if negb (is_connected self) then (self, Raise ConnectionError)
  else
    let message_types := normalize message_types in
    match write_requested_messages self message_types with
    | (self, Ok _) => _poll_messages fuel self message_types timeout
    | (self, Raise e) => (self, Raise e)
    | (self, OutOfFuel) => (self, OutOfFuel)
    end.

(* messages[message_type] *)
Inductive subscript (A : Type) : Type :=
| item (a : A)
| KeyError.
Arguments item {A} a.
Arguments KeyError {A}.

(* ArcticSpaClient.fetch_one, with its assert_connected; the value under
   the key is a message or None *)
Definition fetch_one (fuel : nat) (self : ArcticSpaClient)
    (message_type : MessageType) (timeout : option PrimFloat.float)
  : ArcticSpaClient * result (subscript (option (Message Data))) :=
  if negb (is_connected self) then (self, Raise ConnectionError)
  else
    match poll_messages fuel self (one_type message_type) timeout with
    | (self, Ok messages) =>
        match messages !! message_type with
        | Some message => (self, Ok (item message))
        | None => (self, Ok KeyError)
        end
    | (self, Raise e) => (self, Raise e)
    | (self, OutOfFuel) => (self, OutOfFuel)
    end.

(* ArcticSpaClient.write_command, with its assert_connected *)
Definition write_command (self : ArcticSpaClient)
    (command_type : CommandType) (command_value : py_value)
  : ArcticSpaClient * result unit :=
  match _conn self with
  | None => (self, Raise ConnectionError)
  | Some conn =>
      match _validate_command command_type command_value with
      | Raise e => (self, Raise e)
      | OutOfFuel => (self, OutOfFuel)
      | Ok (property_name, raw_value) =>
          match Command_SerializeToString property_name raw_value with
          | None => (self, Raise ProtobufEncodeError)
          | Some buffer =>
              let command_packet :=
                packet.Packet_init (value COMMAND) (Some buffer) in
              match packet.serialize command_packet with
              | Ok (_, command_packet_bytes) =>
                  (set_conn self (Some (sendall conn command_packet_bytes)),
                   Ok tt)
              | Raise e => (self, Raise e)
              | OutOfFuel => (self, OutOfFuel)
              end
          end
      end
  end.

End session.

End client.

(** ** arctic_spa_client.py: the asyncio client's connection handling *)

Module arctic_spa_client.

Import client.

Record StreamWriter : Type := mkWriter {
  opened_by : nat;
  closing : bool
}.

Record ArcticSpaClient : Type := mkClient {
  host : option string;
  port : Z;
  _reader : option nat;
  _writer : option StreamWriter
}.

Definition set_streams (self : ArcticSpaClient) (r : option nat)
    (w : option StreamWriter) : ArcticSpaClient :=
  {| host := host self; port := port self; _reader := r; _writer := w |}.

Definition set_host (self : ArcticSpaClient) (h : option string)
  : ArcticSpaClient :=
  {| host := h; port := port self;
     _reader := _reader self; _writer := _writer self |}.

Definition set_port (self : ArcticSpaClient) (p : Z) : ArcticSpaClient :=
  {| host := host self; port := p;
     _reader := _reader self; _writer := _writer self |}.

Definition ArcticSpaClient_init (host : option string) (port : option Z)
  : ArcticSpaClient :=
  {| host := host;
     port := if truthy_int port then default 0 port else 65534;
     _reader := None; _writer := None |}.

Definition disconnect (self : ArcticSpaClient) : ArcticSpaClient :=
  match _writer self with
  | Some _ => set_streams self None None
  | None => self
  end.

Definition is_connected (self : ArcticSpaClient) : bool :=
  match _writer self with
  | Some w => negb (closing w)
  | None => false
  end.

Section session.

(* the outcome of the n-th asyncio.open_connection under wait_for: a
   (reader, writer) pair, TimeoutError, or another OSError *)
Variable open_connection : nat -> dial.

(* the while loop of connect: no branch leaves it after a successful open,
   and attempt only advances on a timeout *)
Fixpoint connect_loop (fuel : nat) (self : ArcticSpaClient) (dials : nat)
    (attempt attempts : Z) : ArcticSpaClient * nat * result loop_exit :=
  match fuel with
  | O => (self, dials, OutOfFuel)
  | S fuel' =>
      if attempt <? attempts then
        match open_connection dials with
        | dial_ok =>
            let self :=
              set_streams self (Some dials)
                (Some {| opened_by := dials; closing := false |}) in
            connect_loop fuel' self (S dials) attempt attempts
        | dial_timeout =>
            connect_loop fuel' self (S dials) (attempt + 1) attempts
        | dial_refused => (self, S dials, Ok (returned false))
        end
      else (self, dials, Ok left_loop)
  end.

Definition connect (fuel : nat) (self : ArcticSpaClient) (dials : nat)
    (host : option string) (port : option Z) (attempts : Z)
  : ArcticSpaClient * nat * result bool :=
  let self := disconnect self in
  let self := if truthy_str host then set_host self host else self in
  let self := if truthy_int port then set_port self (default 0 port) else self in
  if negb (truthy_str (arctic_spa_client.host self))
  then (self, dials, Raise ValueError_NoHost)
  else
    match connect_loop fuel self dials 0 attempts with
    | (self, dials, Ok (returned b)) => (self, dials, Ok b)
    | (self, dials, Ok left_loop) => (self, dials, Ok (is_connected self))
    | (self, dials, Raise e) => (self, dials, Raise e)
    | (self, dials, OutOfFuel) => (self, dials, OutOfFuel)
    end.

End session.

End arctic_spa_client.

(** * Vocabulary of the statements *)

(** A write buffer holding [content] with its cursor at the end. *)
Definition filled (capacity : Z) (content : bytes) : bytebuffer.ByteBuffer :=
  bytebuffer.mkByteBuffer (mkBytesIO content (length content)) capacity
    bytebuffer.mode_write.

(** The frame of a packet around a given checksum field. *)
Definition frame (checksum_field : bytes) (p : packet.Packet) : bytes :=
  be32 (-1414718150) ++ checksum_field
  ++ be32 (packet.sequence_number p) ++ be32 (packet.optional p)
  ++ be16 (packet.type p) ++ be16 (packet.size p) ++ packet.payload p.

Definition int16 (v : Z) : Prop := -32768 <= v <= 32767.
Definition int32 (v : Z) : Prop := -2147483648 <= v <= 2147483647.
Definition uint32 (v : Z) : Prop := 0 <= v <= 4294967295.

(** The header fields of a packet fit the formats [serialize] packs them with. *)
Definition fits (p : packet.Packet) : Prop :=
  int32 (packet.sequence_number p) /\ int32 (packet.optional p)
  /\ int16 (packet.type p) /\ int16 (packet.size p).

(** [Packet(packet_type, payload)] with its sequence number then assigned. *)
Definition packet_of (packet_type sequence_number : Z) (payload : bytes)
  : packet.Packet :=
  packet.set_sequence_number (packet.Packet_init packet_type (Some payload))
    sequence_number.

(** A decoder is registered for the numeric message type [n]. *)
Definition registered (n : Z) : bool :=
  match MessageType_of_value n with
  | Some m => client.has_decoder m
  | None => false
  end.

(** The message [decode_one] builds for a frame of type [m]. *)
Definition message_of {Data : Type} (cls : client.pb_class) (m : MessageType)
    (counter : Z) (checksum payload : bytes) (d : Data)
  : client.Message Data :=
  client.mkMessage cls m counter checksum payload d.

(** A frame as it travels: a listed message type, a sequence number, a payload. *)
Record wire_frame : Type := mkWire {
  wire_type : MessageType;
  wire_sequence : Z;
  wire_payload : bytes
}.

(** The bytes [Packet.serialize] gives for a frame (empty when it raises). *)
Definition on_wire (f : wire_frame) : bytes :=
  match packet.serialize
          (packet_of (value (wire_type f)) (wire_sequence f) (wire_payload f))
  with
  | Ok (_, b) => b
  | _ => []
  end.

(** The frame is one [serialize] accepts and whose payload its decoder, when
    there is one, parses. *)
Definition sendable {Data : Type}
    (parse : client.pb_class -> bytes -> option Data) (f : wire_frame) : Prop :=
  0 <= wire_sequence f <= 2147483647
  /\ len (wire_payload f) <= 32767
  /\ forall cls, client.MESSAGE_TYPE_DECODERS (wire_type f) = Some cls ->
                 is_Some (parse cls (wire_payload f)).

(** What [decode] appends for a frame: its message, or the [None] of a
    heartbeat and of a type without decoder. *)
Definition surfaced {Data : Type}
    (parse : client.pb_class -> bytes -> option Data) (f : wire_frame)
  : option (client.Message Data) :=
  if MessageType_eqb (wire_type f) HEARTBEAT then None
  else
    match client.MESSAGE_TYPE_DECODERS (wire_type f) with
    | None => None
    | Some cls =>
        match parse cls (wire_payload f) with
        | None => None
        | Some d =>
            Some (message_of cls (wire_type f) (wire_sequence f)
                    (firstn 4 (skipn 4 (on_wire f))) (wire_payload f) d)
        end
    end.

(** A payload runtime that accepts every byte string and keeps it as it is. *)
Definition parse_any (cls : client.pb_class) (payload : bytes) : option bytes :=
  Some payload.

(** A header with the preamble, a zero checksum field and sequence number,
    and the given type and length fields; no payload follows. *)
Definition bare_header (message_type length : Z) : bytes :=
  client.PREAMBLE ++ be32 0 ++ be32 0 ++ be32 0
  ++ be16 message_type ++ be16 length.

(** A client holding an open socket on which nothing was sent or read yet. *)
Definition fresh_socket : client.socket :=
  {| client.opened_by := 0%nat; client.trace := [];
     client.recv_calls := 0%nat |}.

Definition connected_client : client.ArcticSpaClient :=
  {| client.host := Some "spa"%string; client.port := 65534;
     client._conn := Some fresh_socket |}.

Definition heartbeat_frame : wire_frame := mkWire HEARTBEAT 0 [].


(** A transport on which the first call succeeds and every later one is refused. *)
Definition ok_then_refused (n : nat) : client.dial :=
  match n with
  | O => client.dial_ok
  | S _ => client.dial_refused
  end.

(** A transport on which every call succeeds. *)
Definition always_ok (n : nat) : client.dial := client.dial_ok.

(** The blocking client before the attempt loop of [connect]. *)
Definition configured (self : client.ArcticSpaClient) (host : option string)
    (port : option Z) : client.ArcticSpaClient :=
  let self := client.disconnect self in
  let self := if client.truthy_str host then client.set_host self host
              else self in
  if client.truthy_int port then client.set_port self (default 0 port)
  else self.

(** The socket [create_connection] returns on call number [n]. *)
Definition socket_of (n : nat) : client.socket :=
  {| client.opened_by := n; client.trace := []; client.recv_calls := 0%nat |}.

(** The two clients as constructed for the host "spa" with the default port. *)
Definition blocking_client : client.ArcticSpaClient :=
  client.ArcticSpaClient_init (Some "spa"%string) None.

Definition asyncio_client : arctic_spa_client.ArcticSpaClient :=
  arctic_spa_client.ArcticSpaClient_init (Some "spa"%string) None.

(** The streams [open_connection] returns on call number [n]. *)
Definition streams_of (self : arctic_spa_client.ArcticSpaClient) (n : nat)
  : arctic_spa_client.ArcticSpaClient :=
  arctic_spa_client.set_streams self (Some n)
    (Some {| arctic_spa_client.opened_by := n;
             arctic_spa_client.closing := false |}).

(** The messages of a list returned by [decode], placeholders dropped. *)
Fixpoint present {A : Type} (l : list (option A)) : list A :=
  match l with
  | [] => []
  | Some x :: l' => x :: present l'
  | None :: l' => present l'
  end.

(** The last message of type [t] in a list. *)
Fixpoint last_of {Data : Type} (t : MessageType)
    (l : list (client.Message Data)) : option (client.Message Data) :=
  match l with
  | [] => None
  | x :: l' =>
      match last_of t l' with
      | Some y => Some y
      | None =>
          if MessageType_eqb (client.message_type x) t then Some x else None
      end
  end.

(** Every type of [types] occurs among the messages. *)
Definition all_observed {Data : Type} (types : list MessageType)
    (l : list (client.Message Data)) : bool :=
  forallb (fun t => match last_of t l with Some _ => true | None => false end)
          types.

(** What [decode] returns on the chunk of recv call number [r]. *)
Definition chunk_messages {Data : Type}
    (parse : client.pb_class -> bytes -> option Data) (recv : nat -> bytes)
    (r : nat) : list (option (client.Message Data)) :=
  match client.decode parse (recv r) with
  | Ok ms => ms
  | _ => []
  end.

(** The entries decoded from the [n] chunks starting at recv call [r]. *)
Fixpoint seen {Data : Type}
    (parse : client.pb_class -> bytes -> option Data) (recv : nat -> bytes)
    (r n : nat) : list (option (client.Message Data)) :=
  match n with
  | O => []
  | S n' => chunk_messages parse recv r ++ seen parse recv (S r) n'
  end.

(** The test at the top of the poll loop, on the reading [time c]. *)
Definition expired (time : nat -> PrimFloat.float)
    (timeout : option PrimFloat.float) (c : nat) : bool :=
  client.truthy_float timeout
  && PrimFloat.ltb (default PrimFloat.zero timeout)
                   (PrimFloat.sub (time c) (time 0%nat)).

(** The request [write_requested_messages] sends for a list of types. *)
Definition request_bytes (types : list MessageType) : bytes :=
  concat (map (fun t => on_wire (mkWire t 0 [])) types).

(** A socket after [k] more recv calls. *)
Definition reads (conn : client.socket) (k : nat) : client.socket :=
  {| client.opened_by := client.opened_by conn;
     client.trace := client.trace conn ++ repeat client.io_recv k;
     client.recv_calls := (client.recv_calls conn + k)%nat |}.

(** The session after one request and then [k] reads on its socket. *)
Definition polled (self : client.ArcticSpaClient) (conn : client.socket)
    (request : bytes) (k : nat) : client.ArcticSpaClient :=
  client.set_conn self (Some (reads (client.sendall conn request) k)).

(** A device that answers a poll in two chunks: LIVE with an unsolicited
    ONZEN_LIVE first, every later chunk SETTINGS and LIVE again. *)
Definition poll_feed (k : nat) : bytes :=
  match k with
  | O => on_wire (mkWire LIVE 1 [x08; x01]) ++ on_wire (mkWire ONZEN_LIVE 2 [])
  | S _ => on_wire (mkWire SETTINGS 3 []) ++ on_wire (mkWire LIVE 4 [x08; x02])
  end.

(** A clock that stands still. *)
Definition still_clock (k : nat) : PrimFloat.float := PrimFloat.zero.

(** The default timeout, 5.0 *)
Definition five_seconds : option PrimFloat.float :=
  Some (PrimFloat.add PrimFloat.two (PrimFloat.add PrimFloat.two PrimFloat.one)).

(** The ASCII digits "123456789", the usual CRC test input. *)
Definition ascii_123456789 : bytes :=
  [x31; x32; x33; x34; x35; x36; x37; x38; x39].

(** A peer whose every chunk is three stray bytes. *)
Definition stray_feed (k : nat) : bytes := [x00; x01; x02].

(** The asyncio client before the attempt loop of [connect]. *)
Definition async_configured (self : arctic_spa_client.ArcticSpaClient)
    (host : option string) (port : option Z)
  : arctic_spa_client.ArcticSpaClient :=
  let self := arctic_spa_client.disconnect self in
  let self := if client.truthy_str host
              then arctic_spa_client.set_host self host else self in
  if client.truthy_int port
  then arctic_spa_client.set_port self (default 0 port) else self.

(** A transport on which every call times out. *)
Definition always_timeout (n : nat) : client.dial := client.dial_timeout.

(** ** discovery.py: one UDP probe *)

Module discovery.

(* what one sock.recvfrom(1024) does: it returns a datagram and the address
   it came from, raises socket.timeout, or raises ConnectionResetError *)
Inductive recvfrom_result : Type :=
| datagram (data : bytes) (addr : string)
| socket_timeout
| ConnectionResetError.

(* data.startswith(prefix) *)
Fixpoint startswith (data prefix : bytes) : bool :=
  match prefix, data with
  | [], _ => true
  | p :: prefix', x :: data' => Byte.eqb x p && startswith data' prefix'
  | _ :: _, [] => false
  end.

Definition QUERY_PORT : Z := 9131.
Definition RESPONSE_PORT : Z := 33327.

(* b"Query,BlueFalls," *)
Definition QUERY : bytes :=
  [x51; x75; x65; x72; x79; x2c; x42; x6c; x75; x65; x46; x61; x6c; x6c;
   x73; x2c].

(* b"Response,BlueFalls," *)
Definition RESPONSE : bytes :=
  [x52; x65; x73; x70; x6f; x6e; x73; x65; x2c; x42; x6c; x75; x65; x46;
   x61; x6c; x6c; x73; x2c].

Section probe.

(* the outcome of the n-th recvfrom on the probe's socket *)
Variable recvfrom : nat -> recvfrom_result.

(* the while True loop of udp_probe; calls counts the recvfrom calls; a
   datagram longer than the 1024 bytes asked for is cut *)
Fixpoint udp_probe_loop (fuel : nat) (host : string) (response : bytes)
    (calls : nat) : nat * result bool :=
  match fuel with
  | O => (calls, OutOfFuel)
  | S fuel' =>
      match recvfrom calls with
      | datagram data addr =>
          if String.eqb addr host && startswith (firstn 1024 data) response
          then (S calls, Ok true)
          else udp_probe_loop fuel' host response (S calls)
      | socket_timeout => (S calls, Ok false)
      | ConnectionResetError => (S calls, Ok false)
      end
  end.

(* udp_probe: the socket is bound, the query sent, then the loop; the
   socket is closed on every way out *)
Definition udp_probe (fuel : nat) (host : string) (query : bytes)
    (query_port : Z) (response : bytes) : nat * result bool :=
  udp_probe_loop fuel host response 0.

End probe.

End discovery.

(** A datagram the probe of [host] passes over: from another address, or
    not starting with the expected response. *)
Definition passed_over (host : string) (response : bytes)
    (r : discovery.recvfrom_result) : Prop :=
  match r with
  | discovery.datagram data addr =>
      String.eqb addr host
      && discovery.startswith (firstn 1024 data) response = false
  | _ => False
  end.

(** The answers of a network on which another device replies first. *)
Definition other_device_first (n : nat) : discovery.recvfrom_result :=
  match n with
  | O => discovery.datagram discovery.RESPONSE "192.168.0.9"%string
  | S O => discovery.datagram discovery.RESPONSE "192.168.0.7"%string
  | _ => discovery.socket_timeout
  end.





(** * Properties *)

(** ** Bytes and fixed-width integers *)

Lemma Z_of_byte_of_Z (z : Z) : Z_of_byte (byte_of_Z z) = z mod 256.
Proof.
  unfold Z_of_byte, byte_of_Z.
  assert (Hr : 0 <= z mod 256 < 256) by (apply Z.mod_pos_bound; lia).
  destruct (Byte.of_N (Z.to_N (z mod 256))) as [b|] eqn:E.
  - apply Byte.to_of_N in E. rewrite E. rewrite Z2N.id; lia.
  - apply Byte.of_N_None_iff in E. lia.
Qed.

Lemma Z_of_byte_range (b : byte) : 0 <= Z_of_byte b < 256.
Proof.
  unfold Z_of_byte. pose proof (Byte.to_N_bounded b). lia.
Qed.

Lemma bytes_eqb_eq (a b : bytes) : bytes_eqb a b = true <-> a = b.
Proof.
  revert b. induction a as [|x a IH]; intros [|y b]; simpl; try easy.
  rewrite andb_true_iff, IH. split.
  - intros [H ->]. apply Byte.byte_dec_bl in H. now subst.
  - intros [= -> ->]. split; [apply Byte.byte_dec_lb|]; reflexivity.
Qed.

Lemma bytes_eqb_refl (a : bytes) : bytes_eqb a a = true.
Proof. now apply bytes_eqb_eq. Qed.

Lemma unpack_H_be16 (v : Z) :
  match be16 v with
  | [b1; b0] => unpack_H b1 b0 = v mod 65536
  | _ => False
  end.
Proof.
  unfold be16, unpack_H. rewrite !Z_of_byte_of_Z.
  rewrite Z.shiftr_div_pow2 by lia.
  change (2 ^ 8) with 256.
  replace 65536 with (256 * 256) by reflexivity.
  rewrite Z.rem_mul_r by lia. lia.
Qed.

Lemma unpack_I_be32 (v : Z) :
  match be32 v with
  | [b3; b2; b1; b0] => unpack_I b3 b2 b1 b0 = v mod 4294967296
  | _ => False
  end.
Proof.
  unfold be32, unpack_I. rewrite !Z_of_byte_of_Z.
  rewrite !Z.shiftr_div_pow2 by lia.
  change (2 ^ 8) with 256. change (2 ^ 16) with (256 * 256).
  change (2 ^ 24) with (256 * (256 * 256)).
  replace 4294967296 with (256 * (256 * (256 * 256))) by reflexivity.
  rewrite <- !Z.div_div by lia.
  set (a := v / 256). set (b := a / 256). set (c := b / 256).
  rewrite (Z.rem_mul_r v 256) by lia. fold a.
  rewrite (Z.rem_mul_r a 256) by lia. fold b.
  rewrite (Z.rem_mul_r b 256) by lia. fold c.
  lia.
Qed.

(** ** The CRC stays within 32 bits *)

Example crc32_check_value : crc32 ascii_123456789 = 0xCBF43926.
Proof. vm_compute. reflexivity. Qed.

Example crc32_empty : crc32 [] = 0.
Proof. reflexivity. Qed.

Lemma lxor_below (n a b : Z) :
  0 < n -> 0 <= a < 2 ^ n -> 0 <= b < 2 ^ n -> 0 <= Z.lxor a b < 2 ^ n.
Proof.
  intros Hn Ha Hb. split.
  - apply Z.lxor_nonneg. lia.
  - destruct (Z.eq_dec (Z.lxor a b) 0) as [->|Hne].
    + apply Z.pow_pos_nonneg; lia.
    + assert (Hpos : 0 < Z.lxor a b).
      { assert (0 <= Z.lxor a b) by (apply Z.lxor_nonneg; lia). lia. }
      apply Z.log2_lt_pow2; [exact Hpos|].
      pose proof (Z.log2_lxor a b ltac:(lia) ltac:(lia)) as Hl.
      assert (Z.log2 a < n).
      { destruct (Z.eq_dec a 0) as [->|]; [simpl; lia|].
        apply Z.log2_lt_pow2; lia. }
      assert (Z.log2 b < n).
      { destruct (Z.eq_dec b 0) as [->|]; [simpl; lia|].
        apply Z.log2_lt_pow2; lia. }
      lia.
Qed.

Lemma crc_shift_range (c : Z) :
  0 <= c < 4294967296 -> 0 <= crc_shift c < 4294967296.
Proof.
  intros Hc. unfold crc_shift.
  assert (Hs : 0 <= Z.shiftr c 1 < 4294967296).
  { rewrite Z.shiftr_div_pow2 by lia. change (2 ^ 1) with 2.
    split; [apply Z.div_pos; lia|].
    apply Z.div_lt_upper_bound; lia. }
  destruct (Z.testbit c 0); [|exact Hs].
  change 4294967296 with (2 ^ 32). apply lxor_below; [lia| |].
  - change (2 ^ 32) with 4294967296. exact Hs.
  - change (2 ^ 32) with 4294967296. lia.
Qed.

Lemma crc_update_range (c : Z) (b : byte) :
  0 <= c < 4294967296 -> 0 <= crc_update c b < 4294967296.
Proof.
  intros Hc. unfold crc_update.
  assert (H0 : 0 <= Z.lxor c (Z_of_byte b) < 4294967296).
  { change 4294967296 with (2 ^ 32). apply lxor_below; [lia| |].
    - change (2 ^ 32) with 4294967296. exact Hc.
    - pose proof (Z_of_byte_range b). change (2 ^ 32) with 4294967296. lia. }
  generalize dependent (Z.lxor c (Z_of_byte b)). intros x Hx.
  simpl. do 8 apply crc_shift_range. exact Hx.
Qed.

Lemma crc32_range (data : bytes) : 0 <= crc32 data < 4294967296.
Proof.
  unfold crc32.
  assert (H : forall c, 0 <= c < 4294967296 ->
                        0 <= fold_left crc_update data c < 4294967296).
  { induction data as [|b data IH]; intros c Hc; simpl; [exact Hc|].
    apply IH. now apply crc_update_range. }
  change 4294967296 with (2 ^ 32). apply lxor_below; [lia| |].
  - change (2 ^ 32) with 4294967296. apply H. lia.
  - change (2 ^ 32) with 4294967296. lia.
Qed.

(** ** Writing into a fresh buffer *)

Lemma write_at_end (content b : bytes) :
  write (mkBytesIO content (length content)) b
  = mkBytesIO (content ++ b) (length (content ++ b)).
Proof.
  unfold write. destruct b as [|x b].
  - now rewrite app_nil_r.
  - cbn [getvalue tell]. rewrite Nat.sub_diag. cbn [repeat].
    rewrite app_nil_r, firstn_all.
    rewrite skipn_all2 by lia. rewrite app_nil_r.
    f_equal. now rewrite length_app.
Qed.

Lemma put_bytes_filled (cap : Z) (content b : bytes) :
  bytebuffer.put_bytes (filled cap content) b = filled cap (content ++ b).
Proof.
  unfold bytebuffer.put_bytes, filled, bytebuffer.with_stream.
  cbn [bytebuffer.stream bytebuffer.capacity bytebuffer.mode].
  now rewrite write_at_end.
Qed.

Lemma put_int_filled (cap : Z) (content : bytes) (v : Z) :
  int32 v ->
  bytebuffer.put_int (filled cap content) v
  = Ok (filled cap (content ++ be32 v)).
Proof.
  intros Hv. unfold int32 in Hv. unfold bytebuffer.put_int, pack_i.
  replace ((-2147483648 <=? v) && (v <=? 2147483647)) with true
    by (symmetry; apply andb_true_iff; split; apply Z.leb_le; lia).
  cbn [bind]. f_equal. apply put_bytes_filled.
Qed.

Lemma put_short_filled (cap : Z) (content : bytes) (v : Z) :
  int16 v ->
  bytebuffer.put_short (filled cap content) v
  = Ok (filled cap (content ++ be16 v)).
Proof.
  intros Hv. unfold int16 in Hv. unfold bytebuffer.put_short, pack_h.
  replace ((-32768 <=? v) && (v <=? 32767)) with true
    by (symmetry; apply andb_true_iff; split; apply Z.leb_le; lia).
  cbn [bind]. f_equal. apply put_bytes_filled.
Qed.

Lemma put_int_at_4_filled (cap : Z) (magic field rest : bytes) (v : Z) :
  length magic = 4%nat -> length field = 4%nat -> uint32 v ->
  bytebuffer.put_int_at (filled cap (magic ++ field ++ rest)) 4 v
  = Ok (filled cap (magic ++ be32 v ++ rest)).
Proof.
  intros Hm Hf Hv. unfold uint32 in Hv.
  unfold bytebuffer.put_int_at, pack_I.
  replace ((0 <=? v) && (v <=? 4294967295)) with true
    by (symmetry; apply andb_true_iff; split; apply Z.leb_le; lia).
  cbn [bind]. f_equal.
  unfold filled, bytebuffer.with_stream, seek, write, be32.
  cbn [bytebuffer.stream bytebuffer.capacity bytebuffer.mode getvalue tell].
  f_equal.
  assert (Hlen : (4 <= length (magic ++ field ++ rest))%nat)
    by (rewrite length_app; lia).
  replace (4 - length (magic ++ field ++ rest))%nat with 0%nat by lia.
  cbn [repeat length]. rewrite app_nil_r.
  assert (H1 : firstn 4 (magic ++ field ++ rest) = magic).
  { rewrite <- Hm. rewrite firstn_app, Nat.sub_diag, firstn_all.
    cbn [firstn]. apply app_nil_r. }
  assert (H2 : skipn (4 + 4) (magic ++ field ++ rest) = rest).
  { rewrite skipn_app, Hm. rewrite (skipn_all2 magic) by lia.
    cbn [app]. replace (4 + 4 - 4)%nat with (length field) by lia.
    rewrite skipn_app, Nat.sub_diag, skipn_all. reflexivity. }
  rewrite H1, H2. f_equal.
  rewrite !length_app, Hm, Hf. cbn [length]. lia.
Qed.

(** [serialize] builds the frame around a zero field, then patches the CRC. *)
Lemma serialize_layout (p : packet.Packet) :
  fits p ->
  packet.serialize p
  = Ok (packet.set_checksum p (crc32 (frame (be32 0) p)),
        frame (be32 (crc32 (frame (be32 0) p))) p).
Proof.
  intros (Hs & Ho & Ht & Hz). unfold packet.serialize, bytebuffer.allocate.
  change (bytebuffer.ByteBuffer_init (packet.size p + 20))
    with (filled (packet.size p + 20) []).
  rewrite put_int_filled by (unfold int32; lia). cbn [bind].
  rewrite put_int_filled by (unfold int32; lia). cbn [bind].
  rewrite put_int_filled by exact Hs. cbn [bind].
  rewrite put_int_filled by exact Ho. cbn [bind].
  rewrite put_short_filled by exact Ht. cbn [bind].
  rewrite put_short_filled by exact Hz. cbn [bind].
  rewrite put_bytes_filled.
  cbn [packet.checksum packet.set_checksum].
  unfold bytebuffer.get_stream.
  rewrite <- !app_assoc. cbn [app].
  change (filled ?c ?x) with (filled c x).
  set (body := be32 (packet.sequence_number p) ++ be32 (packet.optional p)
               ++ be16 (packet.type p) ++ be16 (packet.size p)
               ++ packet.payload p).
  assert (Hfr : forall f, frame f p = be32 (-1414718150) ++ f ++ body)
    by reflexivity.
  rewrite !Hfr.
  change (getvalue (bytebuffer.stream (filled ?c ?x))) with x.
  rewrite put_int_at_4_filled; try reflexivity.
  pose proof (crc32_range (be32 (-1414718150) ++ be32 0 ++ body)).
  unfold uint32. lia.
Qed.

(** ** One frame through [decode_one] *)

Section decode_one_facts.

Context {Data : Type}.
Variable parse : client.pb_class -> bytes -> option Data.

(** Past the two guards, [decode_one] is its body on the unpacked header. *)
Lemma decode_one_unfold (data : bytes) (h : client.header) :
  20 <= len data ->
  slice data 0 4 = client.PREAMBLE ->
  client.unpack_header (slice data 0 client.HEADER_SIZE) = Ok h ->
  client.decode_one parse data
  = bind (MessageType_call (client.header_6 h)) (fun message_type =>
    bind (if negb (MessageType_eqb message_type HEARTBEAT) then
            if client.has_decoder message_type then
              bind (client.Message_init parse message_type (client.header_4 h)
                      [client.header_0 h; client.header_1 h;
                       client.header_2 h; client.header_3 h]
                      (slice data 20 (20 + Z.to_nat (client.header_7 h))))
                   (fun m => Ok (Some m))
            else Ok None
          else Ok None) (fun message =>
    Ok (message, skipn (20 + Z.to_nat (client.header_7 h)) data))).
Proof.
  intros Hlen Hpre Hh. unfold client.decode_one.
  change (Z.of_nat client.HEADER_SIZE) with 20.
  destruct (Z.ltb_spec (len data) 20) as [?|_]; [lia|].
  rewrite Hpre, bytes_eqb_refl. cbn [negb]. rewrite Hh. reflexivity.
Qed.

Lemma MessageType_eqb_eq (a b : MessageType) :
  MessageType_eqb a b = true <-> a = b.
Proof.
  unfold MessageType_eqb. rewrite Z.eqb_eq. split; [|now intros ->].
  destruct a, b; simpl; intros H; try reflexivity; discriminate H.
Qed.

Lemma MessageType_call_value (m : MessageType) :
  MessageType_call (value m) = Ok m.
Proof. destruct m; reflexivity. Qed.

Lemma value_range (m : MessageType) : 0 <= value m <= 196.
Proof. destruct m; simpl; lia. Qed.

Lemma heartbeat_no_decoder : client.MESSAGE_TYPE_DECODERS HEARTBEAT = None.
Proof. reflexivity. Qed.

Lemma magic_is_preamble : be32 (-1414718150) = client.PREAMBLE.
Proof. vm_compute. reflexivity. Qed.

(** A frame followed by more bytes: the header read back. *)
Lemma unpack_header_frame (c0 c1 c2 c3 : byte) (p : packet.Packet)
    (rest : bytes) :
  client.unpack_header
    (slice (frame [c0; c1; c2; c3] p ++ rest) 0 client.HEADER_SIZE)
  = Ok {| client.header_0 := c0; client.header_1 := c1;
          client.header_2 := c2; client.header_3 := c3;
          client.header_4 := packet.sequence_number p mod 4294967296;
          client.header_5 := packet.optional p mod 4294967296;
          client.header_6 := packet.type p mod 65536;
          client.header_7 := packet.size p mod 65536 |}.
Proof.
  pose proof (unpack_I_be32 (packet.sequence_number p)) as Hs.
  pose proof (unpack_I_be32 (packet.optional p)) as Ho.
  pose proof (unpack_H_be16 (packet.type p)) as Ht.
  pose proof (unpack_H_be16 (packet.size p)) as Hz.
  unfold frame, slice, client.HEADER_SIZE.
  rewrite magic_is_preamble. unfold client.PREAMBLE.
  unfold be32, be16 in *.
  cbn [app skipn firstn Nat.sub client.unpack_header].
  now rewrite Hs, Ho, Ht, Hz.
Qed.

Lemma frame_split (c0 c1 c2 c3 : byte) (p : packet.Packet) (rest : bytes) :
  exists hdr, length hdr = 20%nat
    /\ frame [c0; c1; c2; c3] p ++ rest = hdr ++ packet.payload p ++ rest
    /\ firstn 4 hdr = client.PREAMBLE
    /\ firstn 4 (skipn 4 hdr) = [c0; c1; c2; c3].
Proof.
  exists (client.PREAMBLE ++ [c0; c1; c2; c3]
          ++ be32 (packet.sequence_number p) ++ be32 (packet.optional p)
          ++ be16 (packet.type p) ++ be16 (packet.size p)).
  unfold frame. rewrite magic_is_preamble.
  repeat split; rewrite <- ?app_assoc; reflexivity.
Qed.

(** [decode_one] on a frame that [serialize] laid out, followed by [rest]. *)
Lemma decode_one_frame (c0 c1 c2 c3 : byte) (p : packet.Packet) (m : MessageType)
    (rest : bytes) :
  packet.type p = value m ->
  0 <= packet.sequence_number p <= 4294967295 ->
  packet.size p = len (packet.payload p) ->
  len (packet.payload p) <= 65535 ->
  client.decode_one parse (frame [c0; c1; c2; c3] p ++ rest)
  = bind (if negb (MessageType_eqb m HEARTBEAT) then
            if client.has_decoder m then
              bind (client.Message_init parse m (packet.sequence_number p)
                      [c0; c1; c2; c3] (packet.payload p))
                   (fun msg => Ok (Some msg))
            else Ok None
          else Ok None) (fun message => Ok (message, rest)).
Proof.
  intros Ht Hs Hz Hl.
  destruct (frame_split c0 c1 c2 c3 p rest) as (hdr & Hlen & Hsplit & Hpre & _).
  assert (Hlong : 20 <= len (frame [c0; c1; c2; c3] p ++ rest)).
  { rewrite Hsplit. unfold len. rewrite length_app. lia. }
  assert (Hmagic : slice (frame [c0; c1; c2; c3] p ++ rest) 0 4
                   = client.PREAMBLE).
  { rewrite Hsplit. unfold slice. rewrite skipn_O. cbn [Nat.sub].
    rewrite firstn_app, Hlen. cbn [Nat.sub firstn]. rewrite app_nil_r.
    exact Hpre. }
  rewrite (decode_one_unfold _ _ Hlong Hmagic
             (unpack_header_frame c0 c1 c2 c3 p rest)).
  cbn [client.header_0 client.header_1 client.header_2 client.header_3
       client.header_4 client.header_6 client.header_7].
  rewrite Ht, Z.mod_small by (pose proof (value_range m); lia).
  rewrite MessageType_call_value. cbn [bind].
  rewrite (Z.mod_small (packet.sequence_number p)) by lia.
  rewrite Hz, (Z.mod_small (len (packet.payload p)))
    by (unfold len in *; lia).
  unfold len. rewrite Nat2Z.id.
  assert (Hpay : slice (frame [c0; c1; c2; c3] p ++ rest) 20
                   (20 + length (packet.payload p)) = packet.payload p).
  { rewrite Hsplit. unfold slice.
    rewrite skipn_app, <- Hlen, skipn_all, Nat.sub_diag, skipn_O. cbn [app].
    replace (length hdr + length (packet.payload p) - length hdr)%nat
      with (length (packet.payload p)) by lia.
    rewrite firstn_app, Nat.sub_diag, firstn_all. cbn [firstn].
    apply app_nil_r. }
  assert (Hrem : skipn (20 + length (packet.payload p))
                   (frame [c0; c1; c2; c3] p ++ rest) = rest).
  { rewrite Hsplit, <- Hlen, app_assoc.
    rewrite <- length_app, skipn_app, skipn_all, Nat.sub_diag.
    reflexivity. }
  rewrite Hpay, Hrem. reflexivity.
Qed.

End decode_one_facts.

(** ** Packets built by the constructor *)

Lemma packet_of_payload (t s : Z) (pl : bytes) :
  packet.payload (packet_of t s pl) = pl.
Proof. destruct pl; reflexivity. Qed.

Lemma packet_of_size (t s : Z) (pl : bytes) :
  packet.size (packet_of t s pl) = len pl.
Proof. destruct pl; reflexivity. Qed.

Lemma packet_of_fits (t s : Z) (pl : bytes) :
  int16 t -> int32 s -> len pl <= 32767 -> fits (packet_of t s pl).
Proof.
  intros Ht Hs Hl. unfold fits. rewrite packet_of_size.
  cbn [packet_of packet.set_sequence_number packet.Packet_init
       packet.sequence_number packet.optional packet.type].
  unfold int16, int32, len in *. lia.
Qed.

Lemma frame_packet_of (field : bytes) (t s : Z) (pl : bytes) :
  frame field (packet_of t s pl)
  = be32 (-1414718150) ++ field ++ be32 s ++ be32 0
    ++ be16 t ++ be16 (len pl) ++ pl.
Proof.
  unfold frame. rewrite packet_of_size, packet_of_payload. reflexivity.
Qed.

Lemma frame_length (c0 c1 c2 c3 : byte) (p : packet.Packet) :
  len (frame [c0; c1; c2; c3] p) = len (packet.payload p) + 20.
Proof.
  unfold frame, len, be32, be16. rewrite !length_app. cbn [length]. lia.
Qed.

(** C2, as the code has it: when the type fits a signed 16-bit field, the
    sequence number a signed 32-bit field and the payload is at most 32767
    bytes long, [Packet.serialize] returns the buffer
    magic, CRC, sequence number, optional = 0, type, length, payload,
    of length [len payload + 20], whose bytes 4..8 hold the big-endian
    CRC-32 of the same buffer with a zero checksum field. *)
Theorem serialize_frame_layout (t s : Z) (pl : bytes) :
  int16 t -> int32 s -> len pl <= 32767 ->
  exists p' buf,
    packet.serialize (packet_of t s pl) = Ok (p', buf)
    /\ packet.checksum p'
       = crc32 (be32 (-1414718150) ++ be32 0 ++ be32 s ++ be32 0
                ++ be16 t ++ be16 (len pl) ++ pl)
    /\ buf = be32 (-1414718150) ++ be32 (packet.checksum p') ++ be32 s
             ++ be32 0 ++ be16 t ++ be16 (len pl) ++ pl
    /\ len buf = len pl + 20
    /\ slice buf 4 8 = be32 (packet.checksum p').
Proof.
  intros Ht Hs Hl.
  pose proof (serialize_layout _ (packet_of_fits t s pl Ht Hs Hl)) as H.
  eexists _, _. split; [exact H|].
  cbn [packet.checksum packet.set_checksum].
  rewrite !frame_packet_of. repeat split.
  unfold len, be32, be16. rewrite !length_app. cbn [length]. lia.
Qed.

Lemma serialize_frame_layout_witness :
  exists p' buf,
    packet.serialize (packet_of 1 7 [x01; x02; x03]) = Ok (p', buf)
    /\ packet.checksum p'
       = crc32 (be32 (-1414718150) ++ be32 0 ++ be32 7 ++ be32 0
                ++ be16 1 ++ be16 (len [x01; x02; x03]) ++ [x01; x02; x03])
    /\ buf = be32 (-1414718150) ++ be32 (packet.checksum p') ++ be32 7
             ++ be32 0 ++ be16 1 ++ be16 (len [x01; x02; x03])
             ++ [x01; x02; x03]
    /\ len buf = len [x01; x02; x03] + 20
    /\ slice buf 4 8 = be32 (packet.checksum p').
Proof.
  apply (serialize_frame_layout 1 7 [x01; x02; x03]);
    unfold int16, int32, len; simpl; lia.
Defined.

(** C2 fails as stated: a payload of 32768 bytes makes
    [put_short(self.size)] raise, and no buffer is returned. *)
Lemma serialize_long_payload_raises :
  packet.serialize (packet_of 0 0 (repeat x00 (Z.to_nat 32768)))
  = Raise StructError.
Proof. vm_compute. reflexivity. Qed.

(** C1, as the code has it: for a type with a registered decoder, a sequence
    number in 0..2^31-1 and a payload of at most 32767 bytes that the decoder
    parses, [decode_one] on the serialized bytes gives one message with that
    type, counter and payload, and an empty remainder. *)
Theorem roundtrip_decode_one {Data : Type}
    (parse : client.pb_class -> bytes -> option Data)
    (m : MessageType) (s : Z) (pl : bytes) (cls : client.pb_class) (d : Data) :
  client.MESSAGE_TYPE_DECODERS m = Some cls ->
  0 <= s <= 2147483647 ->
  len pl <= 32767 ->
  parse cls pl = Some d ->
  exists p' buf,
    packet.serialize (packet_of (value m) s pl) = Ok (p', buf)
    /\ client.decode_one parse buf
       = Ok (Some (message_of cls m s (be32 (packet.checksum p')) pl d), []).
Proof.
  intros Hcls Hs Hl Hd.
  assert (Hfit : fits (packet_of (value m) s pl)).
  { apply packet_of_fits; [|unfold int32; lia|exact Hl].
    pose proof (value_range m). unfold int16. lia. }
  eexists _, _. split; [apply (serialize_layout _ Hfit)|].
  cbn [packet.checksum packet.set_checksum].
  set (crc := crc32 (frame (be32 0) (packet_of (value m) s pl))).
  rewrite <- (app_nil_r (frame (be32 crc) (packet_of (value m) s pl))).
  unfold be32 at 1.
  rewrite (decode_one_frame parse _ _ _ _ _ m).
  - assert (Hm : MessageType_eqb m HEARTBEAT = false).
    { destruct (MessageType_eqb m HEARTBEAT) eqn:E; [|reflexivity].
      apply MessageType_eqb_eq in E. subst m. discriminate Hcls. }
    rewrite Hm. unfold client.has_decoder, client.Message_init.
    rewrite Hcls, packet_of_payload, Hd. reflexivity.
  - reflexivity.
  - cbn [packet_of packet.set_sequence_number packet.sequence_number]. lia.
  - now rewrite packet_of_size, packet_of_payload.
  - rewrite packet_of_payload. lia.
Qed.

Lemma roundtrip_decode_one_witness :
  exists p' buf,
    packet.serialize (packet_of (value LIVE) 7 [x08; x01]) = Ok (p', buf)
    /\ client.decode_one parse_any buf
       = Ok (Some (message_of client.Live_pb2_Live LIVE 7
                     (be32 (packet.checksum p')) [x08; x01] [x08; x01]), []).
Proof.
  apply (roundtrip_decode_one parse_any LIVE 7 [x08; x01]
           client.Live_pb2_Live [x08; x01]);
    [reflexivity | lia | unfold len; simpl; lia | reflexivity].
Defined.

(** C1 fails as stated: LIVE has a decoder, but the 32-bit sequence number
    2^31 is one [put_int] does not pack, and a payload of 32768 bytes has a
    length [put_short] does not pack; in both cases [serialize] raises and
    there are no bytes to decode. *)
Lemma serialize_high_sequence_raises :
  client.MESSAGE_TYPE_DECODERS LIVE = Some client.Live_pb2_Live
  /\ packet.serialize (packet_of (value LIVE) 2147483648 []) = Raise StructError
  /\ packet.serialize
       (packet_of (value LIVE) 0 (repeat x00 (Z.to_nat 32768)))
     = Raise StructError.
Proof. repeat split; vm_compute; reflexivity. Qed.

(** ** [checksum_valid] *)

Lemma checksum_valid_never_false (p : packet.Packet) :
  packet.checksum_valid p <> Ok false.
Proof.
  unfold packet.checksum_valid.
  repeat match goal with
         | |- bind ?r _ <> _ => destruct r; cbn [bind]; try discriminate
         end.
  rewrite Z.land_m1_l, Z.eqb_refl. discriminate.
Qed.

(** C10, as the code has it: [checksum_valid] never returns False, and it
    returns True for every packet whose header fields fit the signed formats
    they are packed with; the comparison of [-1 & crc32] with [crc32] rejects
    nothing. *)
Theorem checksum_valid_accepts (p : packet.Packet) :
  (fits p -> packet.checksum_valid p = Ok true)
  /\ packet.checksum_valid p <> Ok false.
Proof.
  split; [|apply checksum_valid_never_false].
  intros (Hs & Ho & Ht & Hz). unfold packet.checksum_valid, bytebuffer.allocate.
  change (bytebuffer.ByteBuffer_init (len (packet.payload p) + 20))
    with (filled (len (packet.payload p) + 20) []).
  rewrite put_int_filled by (unfold int32; lia). cbn [bind].
  rewrite put_int_filled by (unfold int32; lia). cbn [bind].
  rewrite put_int_filled by exact Hs. cbn [bind].
  rewrite put_int_filled by exact Ho. cbn [bind].
  rewrite put_short_filled by exact Ht. cbn [bind].
  rewrite put_short_filled by exact Hz. cbn [bind].
  now rewrite Z.land_m1_l, Z.eqb_refl.
Qed.

Lemma checksum_valid_accepts_witness :
  fits (packet.Packet_init 0 (Some [x01; x02; x03]))
  /\ packet.checksum_valid (packet.Packet_init 0 (Some [x01; x02; x03]))
     = Ok true.
Proof.
  assert (H : fits (packet.Packet_init 0 (Some [x01; x02; x03])))
    by (unfold fits, int16, int32; simpl; unfold len; simpl; lia).
  split; [exact H|].
  exact (proj1 (checksum_valid_accepts _) H).
Defined.

(** C10 fails as stated: on a packet with a payload of 32768 bytes
    [put_short(self.size)] raises, and [checksum_valid] does not return True. *)
Lemma checksum_valid_long_payload_raises :
  packet.checksum_valid
    (packet.Packet_init 0 (Some (repeat x00 (Z.to_nat 32768))))
  = Raise StructError.
Proof. vm_compute. reflexivity. Qed.

(** ** Skipped frames and short payloads *)

(** C3, as the code has it: on a buffer of at least 20 bytes with the
    preamble whose type field is a value of the MessageType enumeration,
    [decode_one] returns no message exactly when the type is HEARTBEAT or has
    no registered decoder, and then returns, without raising, the remainder
    that starts after the declared payload. *)
Theorem decode_one_skips {Data : Type}
    (parse : client.pb_class -> bytes -> option Data)
    (data : bytes) (h : client.header) (m : MessageType) :
  20 <= len data ->
  slice data 0 4 = client.PREAMBLE ->
  client.unpack_header (slice data 0 client.HEADER_SIZE) = Ok h ->
  MessageType_call (client.header_6 h) = Ok m ->
  ((exists remainder, client.decode_one parse data = Ok (None, remainder))
   <-> (m = HEARTBEAT \/ client.MESSAGE_TYPE_DECODERS m = None))
  /\ ((m = HEARTBEAT \/ client.MESSAGE_TYPE_DECODERS m = None) ->
      client.decode_one parse data
      = Ok (None, skipn (20 + Z.to_nat (client.header_7 h)) data)).
Proof.
  intros Hlen Hpre Hh Hm.
  rewrite (decode_one_unfold parse data h Hlen Hpre Hh), Hm. cbn [bind].
  unfold client.has_decoder, client.Message_init.
  destruct (MessageType_eqb m HEARTBEAT) eqn:Eh; cbn [negb bind].
  - apply MessageType_eqb_eq in Eh. split; [split|]; eauto.
  - assert (Hne : m <> HEARTBEAT).
    { intros ->. now rewrite (proj2 (MessageType_eqb_eq _ _) eq_refl) in Eh. }
    destruct (client.MESSAGE_TYPE_DECODERS m) as [cls|] eqn:Ed; cbn [bind].
    + destruct (parse cls _) as [d|]; cbn [bind].
      * split; [split|].
        -- intros (r & Hr). discriminate Hr.
        -- intros [?|?]; [contradiction|discriminate].
        -- intros [?|?]; [contradiction|discriminate].
      * split; [split|].
        -- intros (r & Hr). discriminate Hr.
        -- intros [?|?]; [contradiction|discriminate].
        -- intros [?|?]; [contradiction|discriminate].
    + split; [split|]; eauto.
Qed.

Lemma decode_one_skips_witness :
  ((exists remainder,
       client.decode_one parse_any (bare_header 10 0 ++ [xab])
       = Ok (None, remainder))
   <-> (HEARTBEAT = HEARTBEAT \/ client.MESSAGE_TYPE_DECODERS HEARTBEAT = None))
  /\ ((HEARTBEAT = HEARTBEAT \/ client.MESSAGE_TYPE_DECODERS HEARTBEAT = None) ->
      client.decode_one parse_any (bare_header 10 0 ++ [xab])
      = Ok (None, skipn (20 + Z.to_nat 0) (bare_header 10 0 ++ [xab]))).
Proof.
  apply (decode_one_skips parse_any (bare_header 10 0 ++ [xab])
           (client.mkHeader x00 x00 x00 x00 0 0 10 0) HEARTBEAT);
    [unfold len; simpl; lia | reflexivity | reflexivity | reflexivity].
Defined.

(** C3 fails as stated: type 11 is not a value of the enumeration, so no
    decoder is registered for it, and [MessageType(header[6])] raises
    ValueError out of [decode_one] instead of skipping the frame. *)
Lemma decode_one_unlisted_type_raises :
  20 <= len (bare_header 11 0)
  /\ slice (bare_header 11 0) 0 4 = client.PREAMBLE
  /\ registered 11 = false
  /\ client.decode_one parse_any (bare_header 11 0)
     = Raise ValueError_MessageType.
Proof. repeat split; vm_compute; try reflexivity. discriminate. Qed.

(** C4, as the code has it: when fewer bytes follow the header than it
    declares, [decode_one] signals nothing: the payload is whatever is
    there, the remainder is empty, and the outcome is the one of a complete
    frame (a skip, a message, or the decoder's own error). *)
Theorem decode_one_short_payload {Data : Type}
    (parse : client.pb_class -> bytes -> option Data)
    (data : bytes) (h : client.header) (m : MessageType) :
  20 <= len data ->
  slice data 0 4 = client.PREAMBLE ->
  client.unpack_header (slice data 0 client.HEADER_SIZE) = Ok h ->
  MessageType_call (client.header_6 h) = Ok m ->
  len data < 20 + client.header_7 h ->
  ((m = HEARTBEAT \/ client.MESSAGE_TYPE_DECODERS m = None) ->
   client.decode_one parse data = Ok (None, []))
  /\ (forall cls d,
        client.MESSAGE_TYPE_DECODERS m = Some cls ->
        parse cls (skipn 20 data) = Some d ->
        client.decode_one parse data
        = Ok (Some (message_of cls m (client.header_4 h)
                      [client.header_0 h; client.header_1 h;
                       client.header_2 h; client.header_3 h]
                      (skipn 20 data) d), []))
  /\ (forall cls,
        client.MESSAGE_TYPE_DECODERS m = Some cls ->
        parse cls (skipn 20 data) = None ->
        client.decode_one parse data = Raise ProtobufDecodeError).
Proof.
  intros Hlen Hpre Hh Hm Hshort.
  rewrite (decode_one_unfold parse data h Hlen Hpre Hh), Hm. cbn [bind].
  assert (Hpay : slice data 20 (20 + Z.to_nat (client.header_7 h))
                 = skipn 20 data).
  { unfold slice. apply firstn_all2. rewrite length_skipn.
    unfold len in Hshort. lia. }
  assert (Hrem : skipn (20 + Z.to_nat (client.header_7 h)) data = []).
  { apply skipn_all2. unfold len in Hshort. lia. }
  rewrite Hpay, Hrem.
  unfold client.has_decoder, client.Message_init.
  assert (Hhb : client.MESSAGE_TYPE_DECODERS m <> None ->
                MessageType_eqb m HEARTBEAT = false).
  { intros Hd. destruct (MessageType_eqb m HEARTBEAT) eqn:E; [|reflexivity].
    apply MessageType_eqb_eq in E. subst m. now destruct Hd. }
  repeat split.
  - intros [->|Hd]; [reflexivity|].
    rewrite Hd. now destruct (MessageType_eqb m HEARTBEAT).
  - intros cls d Hd Hp. rewrite Hhb by congruence.
    cbn [negb]. now rewrite Hd, Hp.
  - intros cls Hd Hp. rewrite Hhb by congruence.
    cbn [negb]. now rewrite Hd, Hp.
Qed.

Lemma decode_one_short_payload_witness :
  ((LIVE = HEARTBEAT \/ client.MESSAGE_TYPE_DECODERS LIVE = None) ->
   client.decode_one parse_any (bare_header 0 5 ++ [x08; x01]) = Ok (None, []))
  /\ (forall cls d,
        client.MESSAGE_TYPE_DECODERS LIVE = Some cls ->
        parse_any cls (skipn 20 (bare_header 0 5 ++ [x08; x01])) = Some d ->
        client.decode_one parse_any (bare_header 0 5 ++ [x08; x01])
        = Ok (Some (message_of cls LIVE 0 [x00; x00; x00; x00]
                      (skipn 20 (bare_header 0 5 ++ [x08; x01])) d), []))
  /\ (forall cls,
        client.MESSAGE_TYPE_DECODERS LIVE = Some cls ->
        parse_any cls (skipn 20 (bare_header 0 5 ++ [x08; x01])) = None ->
        client.decode_one parse_any (bare_header 0 5 ++ [x08; x01])
        = Raise ProtobufDecodeError).
Proof.
  apply (decode_one_short_payload parse_any (bare_header 0 5 ++ [x08; x01])
           (client.mkHeader x00 x00 x00 x00 0 0 0 5) LIVE);
    [unfold len; simpl; lia | reflexivity | reflexivity | reflexivity
    | unfold len; simpl; lia].
Defined.

(** C4 fails as stated: a header declaring 5 payload bytes with none behind
    it is decoded as a complete LIVE message with an empty payload. *)
Lemma decode_one_short_payload_accepted :
  20 <= len (bare_header 0 5) < 20 + 5
  /\ client.unpack_header (slice (bare_header 0 5) 0 client.HEADER_SIZE)
     = Ok (client.mkHeader x00 x00 x00 x00 0 0 0 5)
  /\ client.decode_one parse_any (bare_header 0 5)
     = Ok (Some (message_of client.Live_pb2_Live LIVE 0
                   [x00; x00; x00; x00] [] []), []).
Proof. repeat split; vm_compute; try reflexivity; discriminate. Qed.

(** ** The [decode] loop *)

Section decode_facts.

Context {Data : Type}.
Variable parse : client.pb_class -> bytes -> option Data.

Lemma decode_one_consumes (data : bytes) (m : option (client.Message Data))
    (remainder : bytes) :
  client.decode_one parse data = Ok (m, remainder) ->
  (length remainder + 20 <= length data)%nat.
Proof.
  unfold client.decode_one. change (Z.of_nat client.HEADER_SIZE) with 20.
  destruct (Z.ltb_spec (len data) 20) as [?|Hlen]; [discriminate|].
  destruct (negb _); [discriminate|].
  destruct (client.unpack_header _) as [h| |]; cbn [bind]; try discriminate.
  destruct (MessageType_call _) as [mt| |]; cbn [bind]; try discriminate.
  match goal with
  | |- bind ?r _ = _ -> _ => destruct r; cbn [bind]; try discriminate
  end.
  intros H.
  assert (Hr : remainder
               = skipn (client.HEADER_SIZE + Z.to_nat (client.header_7 h)) data)
    by (unfold slice_from in H; congruence).
  rewrite Hr, length_skipn. unfold len, client.HEADER_SIZE in *. lia.
Qed.

Lemma unpack_header_returns_or_raises (b : bytes) :
  client.unpack_header b <> OutOfFuel.
Proof.
  unfold client.unpack_header.
  do 20 (destruct b as [|? b]; [discriminate|]).
  destruct b; discriminate.
Qed.

Lemma decode_one_returns_or_raises (data : bytes) :
  client.decode_one parse data <> OutOfFuel.
Proof.
  unfold client.decode_one.
  destruct (_ <? _); [discriminate|].
  destruct (negb _); [discriminate|].
  pose proof (unpack_header_returns_or_raises
                (slice data 0 client.HEADER_SIZE)) as Hu.
  destruct (client.unpack_header _) as [h| |]; cbn [bind];
    [|discriminate|contradiction].
  unfold MessageType_call.
  destruct (MessageType_of_value _) as [mt|]; cbn [bind]; [|discriminate].
  destruct (negb _); cbn [bind]; [|discriminate].
  destruct (client.has_decoder mt); cbn [bind]; [|discriminate].
  unfold client.Message_init.
  destruct (client.MESSAGE_TYPE_DECODERS mt); cbn [bind]; [|discriminate].
  destruct (parse _ _); cbn [bind]; discriminate.
Qed.

(** The length of the data is enough fuel: [decode] always returns or raises. *)
Lemma decode_loop_total (fuel : nat) (data : bytes)
    (acc : list (option (client.Message Data))) :
  (length data <= fuel)%nat -> client.decode_loop parse fuel data acc <> OutOfFuel.
Proof.
  revert data acc. induction fuel as [|fuel IH]; intros data acc Hf.
  - destruct data; [discriminate|simpl in Hf; lia].
  - cbn [client.decode_loop].
    destruct (len data >? 0); [|discriminate].
    pose proof (decode_one_returns_or_raises data) as Hd.
    destruct (client.decode_one parse data) as [[m r]| |] eqn:E;
      cbn [bind]; [|discriminate|contradiction].
    apply IH. apply decode_one_consumes in E. lia.
Qed.

Lemma decode_total (data : bytes) : client.decode parse data <> OutOfFuel.
Proof. apply decode_loop_total. reflexivity. Qed.

Lemma on_wire_frame (f : wire_frame) :
  0 <= wire_sequence f <= 2147483647 ->
  len (wire_payload f) <= 32767 ->
  exists c0 c1 c2 c3,
    on_wire f
    = frame [c0; c1; c2; c3]
        (packet_of (value (wire_type f)) (wire_sequence f) (wire_payload f))
    /\ firstn 4 (skipn 4 (on_wire f)) = [c0; c1; c2; c3].
Proof.
  intros Hs Hl. unfold on_wire.
  rewrite serialize_layout.
  - unfold be32 at 1 3. eexists _, _, _, _. split; [reflexivity|].
    unfold frame, be32 at 1. reflexivity.
  - apply packet_of_fits; [|unfold int32; lia|exact Hl].
    pose proof (value_range (wire_type f)). unfold int16. lia.
Qed.

Lemma decode_one_on_wire (f : wire_frame) (rest : bytes) :
  sendable parse f ->
  client.decode_one parse (on_wire f ++ rest) = Ok (surfaced parse f, rest).
Proof.
  intros (Hs & Hl & Hp).
  destruct (on_wire_frame f Hs Hl) as (c0 & c1 & c2 & c3 & Hw & Hck).
  unfold surfaced. rewrite Hck, Hw.
  rewrite (decode_one_frame parse _ _ _ _ _ (wire_type f)).
  - rewrite packet_of_payload.
    destruct (MessageType_eqb (wire_type f) HEARTBEAT); [reflexivity|].
    cbn [negb]. unfold client.has_decoder, client.Message_init.
    destruct (client.MESSAGE_TYPE_DECODERS (wire_type f)) as [cls|] eqn:Ed;
      [|reflexivity].
    destruct (Hp cls eq_refl) as [d Hd]. rewrite Hd. reflexivity.
  - reflexivity.
  - cbn [packet_of packet.set_sequence_number packet.sequence_number]. lia.
  - now rewrite packet_of_size, packet_of_payload.
  - rewrite packet_of_payload. lia.
Qed.

Lemma on_wire_nonempty (f : wire_frame) (rest : bytes) :
  sendable parse f -> (20 <= length (on_wire f ++ rest))%nat.
Proof.
  intros (Hs & Hl & _).
  destruct (on_wire_frame f Hs Hl) as (c0 & c1 & c2 & c3 & Hw & _).
  rewrite Hw, length_app.
  pose proof (frame_length c0 c1 c2 c3
                (packet_of (value (wire_type f)) (wire_sequence f)
                   (wire_payload f))) as Hlen.
  unfold len in Hlen. lia.
Qed.




End decode_facts.




(** ** Command validation *)






(** ** The attempt loop of [connect] *)

Section connect_facts.

Variable dialer : nat -> client.dial.


(** The same for the asyncio loop. *)
Lemma async_connect_loop_timeouts (k : nat) :
  forall fuel self d attempt attempts,
    (forall j, (j < k)%nat -> dialer (d + j) = client.dial_timeout) ->
    attempt + Z.of_nat k <= attempts ->
    arctic_spa_client.connect_loop dialer (k + fuel) self d attempt attempts
    = arctic_spa_client.connect_loop dialer fuel self (d + k)
        (attempt + Z.of_nat k) attempts.
Proof.
  induction k as [|k IH]; intros fuel self d attempt attempts Hto Hle.
  - cbn [Nat.add]. now rewrite Nat.add_0_r, Z.add_0_r.
  - cbn [Nat.add arctic_spa_client.connect_loop].
    destruct (Z.ltb_spec attempt attempts) as [_|?]; [|lia].
    pose proof (Hto 0%nat ltac:(lia)) as H0. rewrite Nat.add_0_r in H0.
    rewrite H0, IH.
    + f_equal; lia.
    + intros j Hj. rewrite <- (Hto (S j)) by lia. f_equal. lia.
    + lia.
Qed.


Lemma configured_disconnected (self : client.ArcticSpaClient)
    (host : option string) (port : option Z) :
  client._conn (configured self host port) = None.
Proof.
  unfold configured, client.disconnect.
  destruct (client._conn self) eqn:E, (client.truthy_str host),
    (client.truthy_int port); cbn; try reflexivity; exact E.
Qed.



End connect_facts.

(** On a transport that always answers, the asyncio loop uses up any bound
    on its iterations, opening one more connection at each. *)
Lemma async_connect_loop_always_ok (attempts : Z) (fuel : nat) :
  0 < attempts ->
  forall self d,
    exists self',
      arctic_spa_client.connect_loop always_ok fuel self d 0 attempts
      = (self', (d + fuel)%nat, OutOfFuel).
Proof.
  intros Ha. induction fuel as [|fuel IH]; intros self d.
  - exists self. cbn. now rewrite Nat.add_0_r.
  - cbn [arctic_spa_client.connect_loop].
    destruct (Z.ltb_spec 0 attempts) as [_|?]; [|lia].
    unfold always_ok at 1.
    destruct (IH (streams_of self d) (S d)) as (self' & Hs).
    exists self'. unfold streams_of in Hs. rewrite Hs. f_equal. f_equal. lia.
Qed.

(** C5 at its failing input: the first call succeeds and a second one would
    be refused, with attempts = 1. The blocking [connect] stops after the
    success and returns True; the asyncio [connect] calls the transport a
    second time and returns False while it holds the open connection. *)
Theorem asyncio_connect_dials_after_success (fuel : nat) :
  client.connect ok_then_refused (S fuel) blocking_client 0 None None 1
  = (client.set_conn blocking_client (Some (socket_of 0)), 1%nat, Ok true)
  /\ arctic_spa_client.connect ok_then_refused (S (S fuel)) asyncio_client 0
       None None 1
     = (streams_of asyncio_client 0, 2%nat, Ok false)
  /\ arctic_spa_client.is_connected (streams_of asyncio_client 0) = true.
Proof. repeat split. Qed.

(** C9 at its failing input: every call succeeds, attempts = 1. The blocking
    [connect] returns True after one call; the asyncio [connect] does not
    return within any number of iterations, each of which calls the
    transport again. *)
Theorem connect_variants_differ (fuel : nat) :
  client.connect always_ok (S fuel) blocking_client 0 None None 1
  = (client.set_conn blocking_client (Some (socket_of 0)), 1%nat, Ok true)
  /\ exists self',
       arctic_spa_client.connect always_ok fuel asyncio_client 0 None None 1
       = (self', fuel, OutOfFuel).
Proof.
  split; [reflexivity|].
  unfold arctic_spa_client.connect.
  cbn [arctic_spa_client.disconnect asyncio_client
       arctic_spa_client.ArcticSpaClient_init arctic_spa_client._writer
       client.truthy_str client.truthy_int arctic_spa_client.host negb].
  match goal with
  | |- context [arctic_spa_client.connect_loop _ _ ?s _ _ _] =>
      destruct (async_connect_loop_always_ok 1 fuel ltac:(lia) s 0%nat)
        as (self' & Hs)
  end.
  exists self'. now rewrite Hs.
Qed.

(** ** Polling *)

Section poll_facts.

Context {Data : Type}.
Variable parse : client.pb_class -> bytes -> option Data.
Variable recv : nat -> bytes.
Variable time : nat -> PrimFloat.float.

Abbreviation dict := (gmap MessageType (option (client.Message Data))).

Lemma present_app (l1 l2 : list (option (client.Message Data))) :
  present (l1 ++ l2) = present l1 ++ present l2.
Proof.
  induction l1 as [|[x|] l1 IH]; cbn [present app]; [reflexivity| |exact IH].
  now rewrite IH.
Qed.

Lemma record_messages_app (req : dict)
    (l1 l2 : list (option (client.Message Data))) :
  client.record_messages (client.record_messages req l1) l2
  = client.record_messages req (l1 ++ l2).
Proof. unfold client.record_messages. now rewrite foldl_app. Qed.

Lemma MessageType_eqb_neq (a b : MessageType) :
  MessageType_eqb a b = false <-> a <> b.
Proof.
  rewrite <- MessageType_eqb_eq. now destruct (MessageType_eqb a b).
Qed.

(** A key of the dict holds the last message of its type, if any was read. *)
Lemma record_messages_lookup (l : list (option (client.Message Data))) :
  forall (req : dict) (t : MessageType),
    client.record_messages req l !! t
    = match last_of t (present l) with
      | Some m => Some (Some m)
      | None => req !! t
      end.
Proof.
  induction l as [|[x|] l IH]; intros req t.
  - reflexivity.
  - change (client.record_messages req (Some x :: l))
      with (client.record_messages (<[client.message_type x := Some x]> req) l).
    rewrite IH. cbn [present last_of].
    destruct (last_of t (present l)); [reflexivity|].
    destruct (MessageType_eqb (client.message_type x) t) eqn:E.
    + apply MessageType_eqb_eq in E. subst t. apply lookup_insert_eq.
    + apply MessageType_eqb_neq in E. now apply lookup_insert_ne.
  - change (client.record_messages req (None :: l))
      with (client.record_messages req l).
    apply IH.
Qed.

Lemma requested_dict_lookup (types : list MessageType) (t : MessageType) :
  client.requested_dict (Data := Data) types !! t
  = if decide (t ∈ types) then Some None else None.
Proof.
  unfold client.requested_dict.
  assert (H : forall d : dict,
             foldl (fun d m => <[m := None]> d) d types !! t
             = if decide (t ∈ types) then Some None else d !! t).
  { induction types as [|m types IH]; intros d; cbn [foldl].
    - destruct (decide (t ∈ [])) as [Hin|_]; [|reflexivity].
      now apply not_elem_of_nil in Hin.
    - rewrite IH.
      destruct (decide (t ∈ types)) as [Hin|Hnin].
      + rewrite decide_True; [reflexivity|now right].
      + destruct (decide (t = m)) as [->|Hne].
        * rewrite decide_True by now left. apply lookup_insert_eq.
        * rewrite decide_False.
          -- now apply lookup_insert_ne.
          -- intros Hc. apply elem_of_cons in Hc. tauto. }
  rewrite H. now rewrite lookup_empty.
Qed.

Lemma None_in_values_false (req : dict) :
  client.None_in_values req = false <-> forall t, req !! t <> Some None.
Proof.
  unfold client.None_in_values. split.
  - intros H t Ht.
    apply elem_of_map_to_list in Ht. apply list_elem_of_In in Ht.
    assert (Hex : existsb
                    (fun kv : MessageType * option (client.Message Data) =>
                       match snd kv with None => true | Some _ => false end)
                    (map_to_list req) = true).
    { apply existsb_exists. exists (t, None). now split. }
    congruence.
  - intros H.
    destruct (existsb _ _) eqn:E; [|reflexivity].
    apply existsb_exists in E. destruct E as ([t v] & Hin & Hv).
    apply list_elem_of_In, elem_of_map_to_list in Hin.
    destruct v; [discriminate|]. now apply H in Hin.
Qed.

Lemma all_observed_true (types : list MessageType)
    (l : list (client.Message Data)) :
  all_observed types l = true
  <-> forall t, t ∈ types -> is_Some (last_of t l).
Proof.
  unfold all_observed. rewrite forallb_forall. split.
  - intros H t Ht. apply list_elem_of_In in Ht. specialize (H t Ht).
    destruct (last_of t l); [eauto|discriminate].
  - intros H t Ht. apply list_elem_of_In in Ht.
    destruct (H t Ht) as [m ->]. reflexivity.
Qed.

(** The loop goes on exactly while a requested type has not been read. *)
Lemma None_in_values_record (types : list MessageType)
    (l : list (option (client.Message Data))) :
  client.None_in_values
    (client.record_messages (client.requested_dict types) l)
  = negb (all_observed types (present l)).
Proof.
  destruct (all_observed types (present l)) eqn:E; cbn [negb].
  - apply None_in_values_false. intros t.
    rewrite record_messages_lookup, requested_dict_lookup.
    destruct (last_of t (present l)) eqn:El; [discriminate|].
    destruct (decide (t ∈ types)) as [Hin|_]; [|discriminate].
    rewrite all_observed_true in E. destruct (E t Hin) as [m Hm]. congruence.
  - destruct (client.None_in_values _) eqn:F; [reflexivity|].
    rewrite None_in_values_false in F.
    assert (Hall : all_observed types (present l) = true); [|congruence].
    apply all_observed_true. intros t Hin.
    specialize (F t). rewrite record_messages_lookup, requested_dict_lookup in F.
    destruct (last_of t (present l)); [eauto|].
    rewrite decide_True in F by exact Hin. congruence.
Qed.

Lemma reads_0 (conn : client.socket) : reads conn 0 = conn.
Proof.
  destruct conn. unfold reads. cbn. now rewrite app_nil_r, Nat.add_0_r.
Qed.

Lemma reads_S (conn : client.socket) (k : nat) :
  reads (reads conn 1) k = reads conn (S k).
Proof.
  unfold reads. cbn [client.opened_by client.trace client.recv_calls repeat].
  f_equal; [now rewrite <- app_assoc|lia].
Qed.

Lemma set_conn_same (self : client.ArcticSpaClient) (conn : client.socket) :
  client._conn self = Some conn -> client.set_conn self (Some conn) = self.
Proof. destruct self. cbn. now intros ->. Qed.

Lemma set_conn_twice (self : client.ArcticSpaClient)
    (c1 c2 : option client.socket) :
  client.set_conn (client.set_conn self c1) c2 = client.set_conn self c2.
Proof. reflexivity. Qed.

Lemma read_messages_connected (self : client.ArcticSpaClient)
    (conn : client.socket) :
  client._conn self = Some conn ->
  client.read_messages parse recv self
  = (client.set_conn self (Some (reads conn 1)),
     client.decode parse (recv (client.recv_calls conn))).
Proof.
  intros Hc.
  unfold client.read_messages, client.is_connected,
    client.read_raw_stream_data.
  rewrite Hc. cbn [negb]. unfold reads. cbn [repeat].
  now rewrite Nat.add_1_r.
Qed.

Lemma expired_falsy (timeout : option PrimFloat.float) (c : nat) :
  client.truthy_float timeout = false -> expired time timeout c = false.
Proof. intros H. unfold expired. now rewrite H. Qed.

Lemma poll_loop_unfold (fuel : nat) (self : client.ArcticSpaClient)
    (conn : client.socket) (c : nat) (timeout : option PrimFloat.float)
    (req : dict) (ms : list (option (client.Message Data))) :
  client._conn self = Some conn ->
  expired time timeout c = false ->
  client.decode parse (recv (client.recv_calls conn)) = Ok ms ->
  client._poll_loop parse recv time (S fuel) self c (time 0%nat) timeout req
  = if client.None_in_values (client.record_messages req ms)
    then client._poll_loop parse recv time fuel
           (client.set_conn self (Some (reads conn 1)))
           (if client.truthy_float timeout then S c else c)
           (time 0%nat) timeout (client.record_messages req ms)
    else (client.set_conn self (Some (reads conn 1)),
          Ok (client.record_messages req ms)).
Proof.
  intros Hc He Hd. cbn [client._poll_loop].
  fold (expired time timeout c). rewrite He.
  now rewrite (read_messages_connected self conn Hc), Hd.
Qed.

(** The loop returns at the first read after which every requested type
    has been seen, with the dict of the last message per type. *)
Lemma poll_loop_completes (types : list MessageType)
    (timeout : option PrimFloat.float) (n : nat) :
  forall fuel self conn c prefix,
    client._conn self = Some conn ->
    (forall i, (i <= n)%nat -> expired time timeout (c + i) = false) ->
    (forall i, (i <= n)%nat ->
       exists ms, client.decode parse (recv (client.recv_calls conn + i))
                  = Ok ms) ->
    (forall i, (i < n)%nat ->
       all_observed types
         (present (prefix ++ seen parse recv (client.recv_calls conn) (S i)))
       = false) ->
    all_observed types
      (present (prefix ++ seen parse recv (client.recv_calls conn) (S n)))
    = true ->
    (n < fuel)%nat ->
    client._poll_loop parse recv time fuel self c (time 0%nat) timeout
      (client.record_messages (client.requested_dict types) prefix)
    = (client.set_conn self (Some (reads conn (S n))),
       Ok (client.record_messages (client.requested_dict types)
             (prefix ++ seen parse recv (client.recv_calls conn) (S n)))).
Proof.
  induction n as [|n IH]; intros fuel self conn c prefix Hc He Hd Hp Hf Hfuel;
    (destruct fuel as [|fuel]; [lia|]);
    destruct (Hd 0%nat ltac:(lia)) as (ms & Hms);
    rewrite Nat.add_0_r in Hms;
    pose proof (He 0%nat ltac:(lia)) as He0; rewrite Nat.add_0_r in He0;
    rewrite (poll_loop_unfold _ _ _ _ _ _ _ Hc He0 Hms);
    rewrite record_messages_app, None_in_values_record;
    assert (Hseen1 : seen parse recv (client.recv_calls conn) 1 = ms)
      by (cbn [seen]; unfold chunk_messages; rewrite Hms; apply app_nil_r).
  - rewrite Hseen1 in Hf. rewrite Hf. cbn [negb]. now rewrite Hseen1.
  - pose proof (Hp 0%nat ltac:(lia)) as Hp0. rewrite Hseen1 in Hp0.
    rewrite Hp0. cbn [negb].
    assert (Hshift : forall k,
               prefix ++ seen parse recv (client.recv_calls conn) (S (S k))
               = (prefix ++ ms)
                 ++ seen parse recv (S (client.recv_calls conn)) (S k)).
    { intros k. rewrite <- app_assoc. f_equal.
      change (seen parse recv (client.recv_calls conn) (S (S k)))
        with (chunk_messages parse recv (client.recv_calls conn)
              ++ seen parse recv (S (client.recv_calls conn)) (S k)).
      unfold chunk_messages at 1. now rewrite Hms. }
    assert (Hr1 : client.recv_calls (reads conn 1)
                  = S (client.recv_calls conn))
      by (cbn; lia).
    rewrite (IH fuel _ (reads conn 1) _ (prefix ++ ms)).
    + rewrite set_conn_twice, reads_S, Hr1, <- Hshift. reflexivity.
    + reflexivity.
    + intros i Hi. destruct (client.truthy_float timeout) eqn:Et.
      * rewrite <- (He (S i)) by lia. f_equal. lia.
      * now apply expired_falsy.
    + intros i Hi. rewrite Hr1. destruct (Hd (S i) ltac:(lia)) as (ms' & H').
      exists ms'. rewrite <- H'. f_equal. f_equal. lia.
    + intros i Hi. rewrite Hr1, <- Hshift. apply Hp. lia.
    + rewrite Hr1, <- Hshift. exact Hf.
    + lia.
Qed.


End poll_facts.

(** ** The request and the whole of [poll_messages] *)

Lemma get_message_type_packet_bytes_ok (t : MessageType) :
  client._get_message_type_packet_bytes t = Ok (on_wire (mkWire t 0 [])).
Proof.
  unfold client._get_message_type_packet_bytes, on_wire.
  cbn [wire_type wire_sequence wire_payload].
  change (packet.Packet_init (value t) (Some [])) with (packet_of (value t) 0 []).
  rewrite serialize_layout; [reflexivity|].
  apply packet_of_fits; unfold int16, int32, len; cbn [length];
    pose proof (value_range t); lia.
Qed.

Lemma command_packets_ok (types : list MessageType) :
  forall acc,
    client.command_packets types acc = Ok (acc ++ request_bytes types).
Proof.
  induction types as [|t types IH]; intros acc.
  - cbn. now rewrite app_nil_r.
  - cbn [client.command_packets].
    rewrite get_message_type_packet_bytes_ok. cbn [bind].
    rewrite IH. unfold request_bytes. cbn [map concat].
    now rewrite <- app_assoc.
Qed.

Lemma normalize_twice (arg : client.message_types_arg) :
  client.normalize (client.normalize (client.normalize arg))
  = client.normalize (client.normalize arg).
Proof. destruct arg; reflexivity. Qed.

(** [poll_messages] on an open session: one sendall, then the loop. *)
Lemma poll_messages_unfold {Data : Type}
    (parse : client.pb_class -> bytes -> option Data) (recv : nat -> bytes)
    (time : nat -> PrimFloat.float) (fuel : nat)
    (self : client.ArcticSpaClient) (conn : client.socket)
    (arg : client.message_types_arg) (timeout : option PrimFloat.float) :
  client._conn self = Some conn ->
  client.poll_messages parse recv time fuel self arg timeout
  = client._poll_loop parse recv time fuel
      (client.set_conn self
         (Some (client.sendall conn
                  (request_bytes
                     (client.iterate
                        (client.normalize (client.normalize arg)))))))
      1 (time 0%nat) timeout
      (client.record_messages
         (client.requested_dict (client.iterate (client.normalize arg))) []).
Proof.
  intros Hc.
  unfold client.poll_messages, client.is_connected,
    client.write_requested_messages.
  rewrite Hc. cbn [negb]. rewrite command_packets_ok. reflexivity.
Qed.


Section poll_never_times_out.

Context {Data : Type}.
Variable parse : client.pb_class -> bytes -> option Data.
Variable recv : nat -> bytes.
Variable time : nat -> PrimFloat.float.






End poll_never_times_out.




(** * Further properties of the code *)

(** ** Reading back what was written into a buffer *)

Lemma signed_16_mod (v : Z) : int16 v -> signed 16 (v mod 65536) = v.
Proof.
  unfold int16, signed. intros Hv. change (2 ^ (16 - 1)) with 32768.
  change (2 ^ 16) with 65536.
  destruct (Z.ltb_spec (v mod 65536) 32768) as [H|H].
  - destruct (Z_lt_le_dec v 0) as [Hn|Hp].
    + rewrite <- (Z.mod_add v 1 65536) in H by lia.
      rewrite Z.mod_small in H by lia. lia.
    + apply Z.mod_small. lia.
  - destruct (Z_lt_le_dec v 0) as [Hn|Hp].
    + rewrite <- (Z.mod_add v 1 65536) by lia.
      rewrite Z.mod_small by lia. lia.
    + rewrite Z.mod_small in H by lia. lia.
Qed.

Lemma signed_32_mod (v : Z) : int32 v -> signed 32 (v mod 4294967296) = v.
Proof.
  unfold int32, signed. intros Hv. change (2 ^ (32 - 1)) with 2147483648.
  change (2 ^ 32) with 4294967296.
  destruct (Z.ltb_spec (v mod 4294967296) 2147483648) as [H|H].
  - destruct (Z_lt_le_dec v 0) as [Hn|Hp].
    + rewrite <- (Z.mod_add v 1 4294967296) in H by lia.
      rewrite Z.mod_small in H by lia. lia.
    + apply Z.mod_small. lia.
  - destruct (Z_lt_le_dec v 0) as [Hn|Hp].
    + rewrite <- (Z.mod_add v 1 4294967296) by lia.
      rewrite Z.mod_small by lia. lia.
    + rewrite Z.mod_small in H by lia. lia.
Qed.

Lemma unpack_h_be16 (v : Z) : unpack_h (be16 v) = Ok (signed 16 (v mod 65536)).
Proof.
  pose proof (unpack_H_be16 v) as H. unfold be16, unpack_h in *.
  now rewrite H.
Qed.

Lemma unpack_i_be32 (v : Z) :
  unpack_i (be32 v) = Ok (signed 32 (v mod 4294967296)).
Proof.
  pose proof (unpack_I_be32 v) as H. unfold be32, unpack_i in *.
  now rewrite H.
Qed.

(** A buffer holding [content] with its cursor at [pos]. *)
Lemma read_middle (pre x post : bytes) :
  read (mkBytesIO (pre ++ x ++ post) (length pre)) (length x)
  = (x, mkBytesIO (pre ++ x ++ post) (length (pre ++ x))).
Proof.
  unfold read. cbn [getvalue tell].
  rewrite skipn_app, skipn_all, Nat.sub_diag, skipn_O. cbn [app].
  rewrite firstn_app, Nat.sub_diag, firstn_all. cbn [firstn].
  rewrite app_nil_r, length_app. reflexivity.
Qed.

Lemma get_int_at (cap : Z) (m : bytebuffer.buffer_mode) (pre post : bytes)
    (v : Z) :
  bytebuffer.get_int
    (bytebuffer.mkByteBuffer (mkBytesIO (pre ++ be32 v ++ post) (length pre))
       cap m)
  = (bytebuffer.mkByteBuffer
       (mkBytesIO (pre ++ be32 v ++ post) (length (pre ++ be32 v))) cap m,
     Ok (signed 32 (v mod 4294967296))).
Proof.
  unfold bytebuffer.get_int. cbn [bytebuffer.stream].
  change 4%nat with (length (be32 v)).
  rewrite read_middle. unfold bytebuffer.with_stream.
  cbn [bytebuffer.capacity bytebuffer.mode]. now rewrite unpack_i_be32.
Qed.

Lemma get_short_at (cap : Z) (m : bytebuffer.buffer_mode) (pre post : bytes)
    (v : Z) :
  bytebuffer.get_short
    (bytebuffer.mkByteBuffer (mkBytesIO (pre ++ be16 v ++ post) (length pre))
       cap m)
  = (bytebuffer.mkByteBuffer
       (mkBytesIO (pre ++ be16 v ++ post) (length (pre ++ be16 v))) cap m,
     Ok (signed 16 (v mod 65536))).
Proof.
  unfold bytebuffer.get_short. cbn [bytebuffer.stream].
  change 2%nat with (length (be16 v)).
  rewrite read_middle. unfold bytebuffer.with_stream.
  cbn [bytebuffer.capacity bytebuffer.mode]. now rewrite unpack_h_be16.
Qed.

Lemma get_bytes_at (cap : Z) (m : bytebuffer.buffer_mode)
    (pre x post : bytes) :
  bytebuffer.get_bytes
    (bytebuffer.mkByteBuffer (mkBytesIO (pre ++ x ++ post) (length pre)) cap m)
    (length x)
  = (bytebuffer.mkByteBuffer
       (mkBytesIO (pre ++ x ++ post) (length (pre ++ x))) cap m, x).
Proof.
  unfold bytebuffer.get_bytes. cbn [bytebuffer.stream].
  now rewrite read_middle.
Qed.

(** X1: an int, a short and a run of bytes put into a fresh buffer are,
    after [flip], read back in the same order and with the same values by
    [get_int], [get_short] and [get_bytes]. *)
Theorem buffer_write_flip_read (cap a b : Z) (bs : bytes) :
  int32 a -> int16 b ->
  exists w,
    bind (bytebuffer.put_int (bytebuffer.allocate cap) a)
      (fun w1 => bind (bytebuffer.put_short w1 b)
         (fun w2 => Ok (bytebuffer.put_bytes w2 bs)))
    = Ok w
    /\ snd (bytebuffer.get_int (bytebuffer.flip w)) = Ok a
    /\ snd (bytebuffer.get_short
              (fst (bytebuffer.get_int (bytebuffer.flip w)))) = Ok b
    /\ snd (bytebuffer.get_bytes
              (fst (bytebuffer.get_short
                      (fst (bytebuffer.get_int (bytebuffer.flip w)))))
              (length bs)) = bs.
Proof.
  intros Ha Hb. unfold bytebuffer.allocate.
  change (bytebuffer.ByteBuffer_init cap) with (filled cap []).
  rewrite put_int_filled by exact Ha. cbn [bind].
  rewrite put_short_filled by exact Hb. cbn [bind].
  rewrite put_bytes_filled. eexists. split; [reflexivity|].
  cbn [app]. rewrite <- app_assoc.
  unfold bytebuffer.flip, filled, seek.
  cbn [bytebuffer.stream bytebuffer.capacity getvalue].
  change 0%nat with (length (@nil byte)).
  change (be32 a ++ be16 b ++ bs) with ([] ++ be32 a ++ be16 b ++ bs).
  rewrite get_int_at. cbn [fst snd].
  rewrite (signed_32_mod a Ha). split; [reflexivity|].
  cbn [app].
  rewrite (get_short_at cap bytebuffer.mode_read (be32 a) bs b).
  cbn [fst snd]. rewrite (signed_16_mod b Hb). split; [reflexivity|].
  replace (be32 a ++ be16 b ++ bs) with ((be32 a ++ be16 b) ++ bs ++ [])
    by (now rewrite app_nil_r, <- app_assoc).
  rewrite (get_bytes_at cap bytebuffer.mode_read (be32 a ++ be16 b) bs []).
  reflexivity.
Qed.

Lemma buffer_write_flip_read_witness :
  exists w,
    bind (bytebuffer.put_int (bytebuffer.allocate 16) (-5))
      (fun w1 => bind (bytebuffer.put_short w1 300)
         (fun w2 => Ok (bytebuffer.put_bytes w2 [x01; x02])))
    = Ok w
    /\ snd (bytebuffer.get_int (bytebuffer.flip w)) = Ok (-5)
    /\ snd (bytebuffer.get_short
              (fst (bytebuffer.get_int (bytebuffer.flip w)))) = Ok 300
    /\ snd (bytebuffer.get_bytes
              (fst (bytebuffer.get_short
                      (fst (bytebuffer.get_int (bytebuffer.flip w)))))
              (length [x01; x02])) = [x01; x02].
Proof.
  apply (buffer_write_flip_read 16 (-5) 300 [x01; x02]);
    unfold int32, int16; lia.
Defined.

(** ** Writing at an offset *)

Lemma write_inside (content b : bytes) (index pos : nat) :
  (index + length b <= length content)%nat ->
  seek (write (seek (mkBytesIO content pos) index) b) pos
  = mkBytesIO (firstn index content ++ b ++ skipn (index + length b) content)
      pos.
Proof.
  intros Hin. unfold seek, write. cbn [getvalue tell].
  destruct b as [|x b].
  - cbn [length app]. rewrite Nat.add_0_r, firstn_skipn. reflexivity.
  - cbn [getvalue].
    replace (index - length content)%nat with 0%nat by lia.
    cbn [repeat]. now rewrite app_nil_r.
Qed.

Lemma put_int_at_patch (cap : Z) (m : bytebuffer.buffer_mode)
    (content : bytes) (pos index : nat) (v : Z) :
  (index + 4 <= length content)%nat ->
  uint32 v ->
  bytebuffer.put_int_at
    (bytebuffer.mkByteBuffer (mkBytesIO content pos) cap m) index v
  = Ok (bytebuffer.mkByteBuffer
          (mkBytesIO (firstn index content ++ be32 v
                      ++ skipn (index + 4) content) pos) cap m).
Proof.
  intros Hin Hv. unfold uint32 in Hv.
  unfold bytebuffer.put_int_at, pack_I.
  replace ((0 <=? v) && (v <=? 4294967295)) with true
    by (symmetry; apply andb_true_iff; split; apply Z.leb_le; lia).
  cbn [bind bytebuffer.stream tell]. unfold bytebuffer.with_stream.
  cbn [bytebuffer.capacity bytebuffer.mode].
  rewrite write_inside by exact Hin. reflexivity.
Qed.

(** X2: [put_int_at] on bytes already written changes the four bytes at the
    index and nothing else: the other bytes, the length, the cursor, the
    capacity and the mode stay. *)
Theorem put_int_at_in_place (cap : Z) (m : bytebuffer.buffer_mode)
    (content : bytes) (pos index : nat) (v : Z) :
  (index + 4 <= length content)%nat ->
  uint32 v ->
  exists patched,
    bytebuffer.put_int_at
      (bytebuffer.mkByteBuffer (mkBytesIO content pos) cap m) index v
    = Ok (bytebuffer.mkByteBuffer (mkBytesIO patched pos) cap m)
    /\ patched = firstn index content ++ be32 v ++ skipn (index + 4) content
    /\ length patched = length content
    /\ firstn 4 (skipn index patched) = be32 v.
Proof.
  intros Hin Hv.
  eexists. split; [|split; [reflexivity|]].
  - apply put_int_at_patch; assumption.
  - split.
    + rewrite !length_app, length_firstn, length_skipn.
      change (length (be32 v)) with 4%nat. lia.
    + rewrite skipn_app, length_firstn.
      replace (Nat.min index (length content)) with index by lia.
      rewrite skipn_all2 by (rewrite length_firstn; lia).
      rewrite Nat.sub_diag, skipn_O. reflexivity.
Qed.

Lemma put_int_at_in_place_witness :
  exists patched,
    bytebuffer.put_int_at
      (bytebuffer.mkByteBuffer
         (mkBytesIO [x01; x02; x03; x04; x05; x06] 6) 8 bytebuffer.mode_write)
      1 4294967295
    = Ok (bytebuffer.mkByteBuffer (mkBytesIO patched 6) 8 bytebuffer.mode_write)
    /\ patched = firstn 1 [x01; x02; x03; x04; x05; x06] ++ be32 4294967295
                 ++ skipn (1 + 4) [x01; x02; x03; x04; x05; x06]
    /\ length patched = length [x01; x02; x03; x04; x05; x06]
    /\ firstn 4 (skipn 1 patched) = be32 4294967295.
Proof.
  apply (put_int_at_in_place 8 bytebuffer.mode_write
           [x01; x02; x03; x04; x05; x06] 6 1 4294967295);
    [simpl; lia | unfold uint32; lia].
Defined.

(** X3: [put_int_at] packs unsigned and [get_int] unpacks signed: a value
    put over the first int of a buffer is read back after [flip] as itself
    below 2^31 and as the value minus 2^32 from 2^31 on. *)
Theorem put_int_at_then_get_int (cap a v : Z) :
  int32 a -> uint32 v ->
  exists w,
    bind (bytebuffer.put_int (bytebuffer.allocate cap) a)
      (fun w1 => bytebuffer.put_int_at w1 0 v) = Ok w
    /\ snd (bytebuffer.get_int (bytebuffer.flip w))
       = Ok (if v <? 2147483648 then v else v - 4294967296).
Proof.
  intros Ha Hv. unfold bytebuffer.allocate.
  change (bytebuffer.ByteBuffer_init cap) with (filled cap []).
  rewrite put_int_filled by exact Ha. cbn [bind app].
  pose proof (put_int_at_patch cap bytebuffer.mode_write (be32 a) 4 0 v
                ltac:(simpl; lia) Hv) as Hput.
  unfold filled. change (length (be32 a)) with 4%nat.
  rewrite Hput. eexists. split; [reflexivity|].
  cbn [firstn skipn Nat.add app be32].
  unfold bytebuffer.flip, seek. cbn [bytebuffer.stream getvalue
    bytebuffer.capacity].
  pose proof (get_int_at cap bytebuffer.mode_read [] [] v) as Hget.
  cbn [app length] in Hget. unfold be32 in Hget. cbn [app] in Hget.
  rewrite Hget. cbn [snd]. f_equal.
  unfold uint32 in Hv. rewrite Z.mod_small by lia. reflexivity.
Qed.

Lemma put_int_at_then_get_int_witness :
  exists w,
    bind (bytebuffer.put_int (bytebuffer.allocate 1024) 10)
      (fun w1 => bytebuffer.put_int_at w1 0 42) = Ok w
    /\ snd (bytebuffer.get_int (bytebuffer.flip w))
       = Ok (if 42 <? 2147483648 then 42 else 42 - 4294967296).
Proof.
  apply (put_int_at_then_get_int 1024 10 42); unfold int32, uint32; lia.
Defined.

(** X4: [put_short_at] on bytes already written changes the two bytes at
    the index and nothing else, and keeps the cursor. *)
Theorem put_short_at_in_place (cap : Z) (m : bytebuffer.buffer_mode)
    (content : bytes) (pos index : nat) (v : Z) :
  (index + 2 <= length content)%nat ->
  int16 v ->
  exists patched,
    bytebuffer.put_short_at
      (bytebuffer.mkByteBuffer (mkBytesIO content pos) cap m) index v
    = Ok (bytebuffer.mkByteBuffer (mkBytesIO patched pos) cap m)
    /\ patched = firstn index content ++ be16 v ++ skipn (index + 2) content
    /\ length patched = length content
    /\ unpack_h (firstn 2 (skipn index patched)) = Ok v.
Proof.
  intros Hin Hv.
  eexists. split; [|split; [reflexivity|]].
  - unfold int16 in Hv. unfold bytebuffer.put_short_at, pack_h.
    replace ((-32768 <=? v) && (v <=? 32767)) with true
      by (symmetry; apply andb_true_iff; split; apply Z.leb_le; lia).
    cbn [bind bytebuffer.stream tell]. unfold bytebuffer.with_stream.
    cbn [bytebuffer.capacity bytebuffer.mode].
    rewrite write_inside by exact Hin. reflexivity.
  - split.
    + rewrite !length_app, length_firstn, length_skipn.
      change (length (be16 v)) with 2%nat. lia.
    + rewrite skipn_app, length_firstn.
      replace (Nat.min index (length content)) with index by lia.
      rewrite skipn_all2 by (rewrite length_firstn; lia).
      rewrite Nat.sub_diag, skipn_O.
      pose proof (unpack_h_be16 v) as Hu. unfold be16 in *.
      cbn [app firstn]. rewrite firstn_O. now rewrite Hu, signed_16_mod.
Qed.

Lemma put_short_at_in_place_witness :
  exists patched,
    bytebuffer.put_short_at
      (bytebuffer.mkByteBuffer (mkBytesIO [x01; x02; x03; x04] 4) 4
         bytebuffer.mode_write) 2 (-2)
    = Ok (bytebuffer.mkByteBuffer (mkBytesIO patched 4) 4
            bytebuffer.mode_write)
    /\ patched = firstn 2 [x01; x02; x03; x04] ++ be16 (-2)
                 ++ skipn (2 + 2) [x01; x02; x03; x04]
    /\ length patched = length [x01; x02; x03; x04]
    /\ unpack_h (firstn 2 (skipn 2 patched)) = Ok (-2).
Proof.
  apply (put_short_at_in_place 4 bytebuffer.mode_write [x01; x02; x03; x04]
           4 2 (-2)); [simpl; lia | unfold int16; lia].
Defined.

(** X5: [put_int_at] at an index past the end fills the gap with zero
    bytes, appends the four bytes, and leaves the cursor where it was. *)
Theorem put_int_at_past_end (cap : Z) (m : bytebuffer.buffer_mode)
    (content : bytes) (pos index : nat) (v : Z) :
  (length content <= index)%nat ->
  uint32 v ->
  bytebuffer.put_int_at
    (bytebuffer.mkByteBuffer (mkBytesIO content pos) cap m) index v
  = Ok (bytebuffer.mkByteBuffer
          (mkBytesIO (content ++ repeat x00 (index - length content)
                      ++ be32 v) pos) cap m).
Proof.
  intros Hin Hv. unfold uint32 in Hv.
  unfold bytebuffer.put_int_at, pack_I.
  replace ((0 <=? v) && (v <=? 4294967295)) with true
    by (symmetry; apply andb_true_iff; split; apply Z.leb_le; lia).
  cbn [bind bytebuffer.stream tell]. unfold bytebuffer.with_stream.
  cbn [bytebuffer.capacity bytebuffer.mode].
  unfold seek, write, be32. cbn [getvalue tell]. f_equal. f_equal. f_equal.
  assert (Hl : length (content ++ repeat x00 (index - length content))
               = index) by (rewrite length_app, repeat_length; lia).
  rewrite firstn_all2 by lia.
  rewrite skipn_all2 by (cbn [length]; lia).
  now rewrite app_nil_r, <- app_assoc.
Qed.

Lemma put_int_at_past_end_witness :
  bytebuffer.put_int_at
    (bytebuffer.mkByteBuffer (mkBytesIO [x01] 1) 0 bytebuffer.mode_write) 3 7
  = Ok (bytebuffer.mkByteBuffer
          (mkBytesIO ([x01] ++ repeat x00 (3 - length [x01]) ++ be32 7) 1)
          0 bytebuffer.mode_write).
Proof.
  apply (put_int_at_past_end 0 bytebuffer.mode_write [x01] 1 3 7);
    [simpl; lia | unfold uint32; lia].
Defined.

(** ** Reading past the end, compacting, capacity *)

(** X6: [get_int] returns an int exactly when four bytes are left after
    the cursor, and then moves the cursor by four; with fewer bytes left it
    raises struct.error after moving the cursor over what was left. *)
Theorem get_int_needs_four (b : bytebuffer.ByteBuffer) :
  let content := getvalue (bytebuffer.stream b) in
  let pos := tell (bytebuffer.stream b) in
  ((pos + 4 <= length content)%nat ->
   exists v, snd (bytebuffer.get_int b) = Ok v
             /\ int32 v
             /\ tell (bytebuffer.stream (fst (bytebuffer.get_int b)))
                = (pos + 4)%nat)
  /\ ((length content < pos + 4)%nat ->
      snd (bytebuffer.get_int b) = Raise StructError
      /\ tell (bytebuffer.stream (fst (bytebuffer.get_int b)))
         = Nat.max pos (length content)).
Proof.
  intros content pos. subst content pos.
  destruct b as [[content pos] cap m].
  unfold bytebuffer.get_int, read.
  cbn [bytebuffer.stream getvalue tell fst snd bytebuffer.with_stream].
  set (got := firstn 4 (skipn pos content)).
  assert (Hgot : length got = Nat.min 4 (length content - pos))
    by (unfold got; now rewrite length_firstn, length_skipn).
  split; intros H.
  - destruct got as [|b3 [|b2 [|b1 [|b0 [|? ?]]]]] eqn:E;
      cbn [length] in Hgot; try lia.
    eexists. split; [reflexivity|]. split; [|cbn [length]; lia].
    unfold int32, signed. change (2 ^ (32 - 1)) with 2147483648.
    change (2 ^ 32) with 4294967296.
    pose proof (Z_of_byte_range b3). pose proof (Z_of_byte_range b2).
    pose proof (Z_of_byte_range b1). pose proof (Z_of_byte_range b0).
    unfold unpack_I.
    destruct (Z.ltb_spec
                (((Z_of_byte b3 * 256 + Z_of_byte b2) * 256 + Z_of_byte b1)
                 * 256 + Z_of_byte b0) 2147483648); lia.
  - split.
    + destruct got as [|b3 [|b2 [|b1 [|b0 [|? ?]]]]] eqn:E;
        cbn [length] in Hgot; try reflexivity; lia.
    + lia.
Qed.

Lemma get_int_needs_four_witness :
  snd (bytebuffer.get_int
         (bytebuffer.mkByteBuffer (mkBytesIO [x01; x02; x03] 1) 0
            bytebuffer.mode_read)) = Raise StructError
  /\ tell (bytebuffer.stream
             (fst (bytebuffer.get_int
                     (bytebuffer.mkByteBuffer (mkBytesIO [x01; x02; x03] 1) 0
                        bytebuffer.mode_read))))
     = Nat.max 1 (length [x01; x02; x03]).
Proof.
  apply (proj2 (get_int_needs_four
                  (bytebuffer.mkByteBuffer (mkBytesIO [x01; x02; x03] 1) 0
                     bytebuffer.mode_read))).
  simpl. lia.
Defined.

(** X7: [compact] keeps the bytes from the cursor on but puts the cursor at
    their start, so the next [put_bytes] overwrites them from the first
    byte instead of appending after them. *)
Theorem compact_then_put_overwrites (b : bytebuffer.ByteBuffer) (bs : bytes) :
  let rest := skipn (tell (bytebuffer.stream b))
                (getvalue (bytebuffer.stream b)) in
  getvalue (bytebuffer.stream (bytebuffer.compact b)) = rest
  /\ tell (bytebuffer.stream (bytebuffer.compact b)) = 0%nat
  /\ getvalue (bytebuffer.stream
                 (bytebuffer.put_bytes (bytebuffer.compact b) bs))
     = bs ++ skipn (length bs) rest.
Proof.
  intros rest. subst rest. split; [reflexivity|]. split; [reflexivity|].
  unfold bytebuffer.put_bytes, bytebuffer.compact, bytebuffer.with_stream,
    write, read_all, BytesIO_init.
  cbn [bytebuffer.stream getvalue tell fst].
  destruct bs as [|x bs]; [reflexivity|].
  cbn [getvalue Nat.sub repeat firstn Nat.add]. now rewrite app_nil_r.
Qed.

(** X8: the capacity given to [allocate] is only stored: bytes put into a
    fresh buffer are all kept whatever the capacity, and [get_capacity]
    still returns the number given. *)
Theorem capacity_not_enforced (cap : Z) (bs : bytes) :
  getvalue (bytebuffer.get_stream
              (bytebuffer.put_bytes (bytebuffer.allocate cap) bs)) = bs
  /\ bytebuffer.get_capacity
       (bytebuffer.put_bytes (bytebuffer.allocate cap) bs) = cap.
Proof.
  unfold bytebuffer.allocate.
  change (bytebuffer.ByteBuffer_init cap) with (filled cap []).
  rewrite put_bytes_filled. split; reflexivity.
Qed.

(** ** When [serialize] and [checksum_valid] raise *)

Lemma put_int_unfit (b : bytebuffer.ByteBuffer) (v : Z) :
  ~ int32 v -> bytebuffer.put_int b v = Raise StructError.
Proof.
  unfold int32. intros Hv. unfold bytebuffer.put_int, pack_i.
  replace ((-2147483648 <=? v) && (v <=? 2147483647)) with false;
    [reflexivity|].
  symmetry. apply andb_false_iff.
  destruct (Z.leb_spec (-2147483648) v), (Z.leb_spec v 2147483647);
    auto; lia.
Qed.

Lemma put_short_unfit (b : bytebuffer.ByteBuffer) (v : Z) :
  ~ int16 v -> bytebuffer.put_short b v = Raise StructError.
Proof.
  unfold int16. intros Hv. unfold bytebuffer.put_short, pack_h.
  replace ((-32768 <=? v) && (v <=? 32767)) with false; [reflexivity|].
  symmetry. apply andb_false_iff.
  destruct (Z.leb_spec (-32768) v), (Z.leb_spec v 32767); auto; lia.
Qed.

Lemma int32_dec (v : Z) : {int32 v} + {~ int32 v}.
Proof.
  unfold int32.
  destruct (Z_le_dec (-2147483648) v), (Z_le_dec v 2147483647);
    (left; lia) || (right; lia).
Defined.

Lemma int16_dec (v : Z) : {int16 v} + {~ int16 v}.
Proof.
  unfold int16.
  destruct (Z_le_dec (-32768) v), (Z_le_dec v 32767);
    (left; lia) || (right; lia).
Defined.

Lemma serialize_unfit (p : packet.Packet) :
  ~ fits p -> packet.serialize p = Raise StructError.
Proof.
  intros Hn. unfold packet.serialize, bytebuffer.allocate.
  change (bytebuffer.ByteBuffer_init (packet.size p + 20))
    with (filled (packet.size p + 20) []).
  rewrite put_int_filled by (unfold int32; lia). cbn [bind].
  rewrite put_int_filled by (unfold int32; lia). cbn [bind].
  destruct (int32_dec (packet.sequence_number p)) as [Hs|Hs];
    [rewrite put_int_filled by exact Hs; cbn [bind]
    |now rewrite put_int_unfit by exact Hs].
  destruct (int32_dec (packet.optional p)) as [Ho|Ho];
    [rewrite put_int_filled by exact Ho; cbn [bind]
    |now rewrite put_int_unfit by exact Ho].
  destruct (int16_dec (packet.type p)) as [Ht|Ht];
    [rewrite put_short_filled by exact Ht; cbn [bind]
    |now rewrite put_short_unfit by exact Ht].
  destruct (int16_dec (packet.size p)) as [Hz|Hz];
    [|now rewrite put_short_unfit by exact Hz].
  destruct Hn. exact (conj Hs (conj Ho (conj Ht Hz))).
Qed.

Lemma checksum_valid_unfit (p : packet.Packet) :
  ~ fits p -> packet.checksum_valid p = Raise StructError.
Proof.
  intros Hn. unfold packet.checksum_valid, bytebuffer.allocate.
  change (bytebuffer.ByteBuffer_init (len (packet.payload p) + 20))
    with (filled (len (packet.payload p) + 20) []).
  rewrite put_int_filled by (unfold int32; lia). cbn [bind].
  rewrite put_int_filled by (unfold int32; lia). cbn [bind].
  destruct (int32_dec (packet.sequence_number p)) as [Hs|Hs];
    [rewrite put_int_filled by exact Hs; cbn [bind]
    |now rewrite put_int_unfit by exact Hs].
  destruct (int32_dec (packet.optional p)) as [Ho|Ho];
    [rewrite put_int_filled by exact Ho; cbn [bind]
    |now rewrite put_int_unfit by exact Ho].
  destruct (int16_dec (packet.type p)) as [Ht|Ht];
    [rewrite put_short_filled by exact Ht; cbn [bind]
    |now rewrite put_short_unfit by exact Ht].
  destruct (int16_dec (packet.size p)) as [Hz|Hz];
    [|now rewrite put_short_unfit by exact Hz].
  destruct Hn. exact (conj Hs (conj Ho (conj Ht Hz))).
Qed.

(** X9: [serialize] and [checksum_valid] raise struct.error on exactly the
    same packets, the ones with a header field outside its signed format;
    on every other packet [serialize] returns bytes and [checksum_valid]
    returns True. *)
Theorem serialize_raises_iff_unfit (p : packet.Packet) :
  (packet.serialize p = Raise StructError <-> ~ fits p)
  /\ (packet.checksum_valid p = Raise StructError <-> ~ fits p)
  /\ ((exists r, packet.serialize p = Ok r) <-> fits p)
  /\ (packet.checksum_valid p = Ok true <-> fits p).
Proof.
  assert (Hdec : fits p \/ ~ fits p).
  { unfold fits.
    destruct (int32_dec (packet.sequence_number p)),
      (int32_dec (packet.optional p)), (int16_dec (packet.type p)),
      (int16_dec (packet.size p)); tauto. }
  assert (Hcv : fits p -> packet.checksum_valid p = Ok true).
  { intros (Hs & Ho & Ht & Hz).
    unfold packet.checksum_valid, bytebuffer.allocate.
    change (bytebuffer.ByteBuffer_init (len (packet.payload p) + 20))
      with (filled (len (packet.payload p) + 20) []).
    rewrite put_int_filled by (unfold int32; lia). cbn [bind].
    rewrite put_int_filled by (unfold int32; lia). cbn [bind].
    rewrite put_int_filled by exact Hs. cbn [bind].
    rewrite put_int_filled by exact Ho. cbn [bind].
    rewrite put_short_filled by exact Ht. cbn [bind].
    rewrite put_short_filled by exact Hz. cbn [bind].
    now rewrite Z.land_m1_l, Z.eqb_refl. }
  split; [split|split; [split|split; [split|split]]].
  - intros Hr Hf. rewrite (serialize_layout p Hf) in Hr. discriminate Hr.
  - apply serialize_unfit.
  - intros Hr Hf. rewrite (Hcv Hf) in Hr. discriminate Hr.
  - apply checksum_valid_unfit.
  - intros (r & Hr). destruct Hdec as [Hf|Hf]; [exact Hf|].
    rewrite (serialize_unfit p Hf) in Hr. discriminate Hr.
  - intros Hf. rewrite (serialize_layout p Hf). eauto.
  - intros Hr. destruct Hdec as [Hf|Hf]; [exact Hf|].
    rewrite (checksum_valid_unfit p Hf) in Hr. discriminate Hr.
  - exact Hcv.
Qed.

(** ** Sequence numbers are written signed and read unsigned *)

Lemma decode_one_frame_any_sequence {Data : Type}
    (parse : client.pb_class -> bytes -> option Data)
    (c0 c1 c2 c3 : byte) (p : packet.Packet) (m : MessageType)
    (rest : bytes) :
  packet.type p = value m ->
  packet.size p = len (packet.payload p) ->
  len (packet.payload p) <= 65535 ->
  client.decode_one parse (frame [c0; c1; c2; c3] p ++ rest)
  = bind (if negb (MessageType_eqb m HEARTBEAT) then
            if client.has_decoder m then
              bind (client.Message_init parse m
                      (packet.sequence_number p mod 4294967296)
                      [c0; c1; c2; c3] (packet.payload p))
                   (fun msg => Ok (Some msg))
            else Ok None
          else Ok None) (fun message => Ok (message, rest)).
Proof.
  intros Ht Hz Hl.
  destruct (frame_split c0 c1 c2 c3 p rest) as (hdr & Hlen & Hsplit & Hpre & _).
  assert (Hlong : 20 <= len (frame [c0; c1; c2; c3] p ++ rest)).
  { rewrite Hsplit. unfold len. rewrite length_app. lia. }
  assert (Hmagic : slice (frame [c0; c1; c2; c3] p ++ rest) 0 4
                   = client.PREAMBLE).
  { rewrite Hsplit. unfold slice. rewrite skipn_O. cbn [Nat.sub].
    rewrite firstn_app, Hlen. cbn [Nat.sub firstn]. rewrite app_nil_r.
    exact Hpre. }
  rewrite (decode_one_unfold parse _ _ Hlong Hmagic
             (unpack_header_frame c0 c1 c2 c3 p rest)).
  cbn [client.header_0 client.header_1 client.header_2 client.header_3
       client.header_4 client.header_6 client.header_7].
  rewrite Ht, (Z.mod_small (value m)) by (pose proof (value_range m); lia).
  rewrite MessageType_call_value. cbn [bind].
  rewrite Hz, (Z.mod_small (len (packet.payload p)))
    by (unfold len in *; lia).
  unfold len. rewrite Nat2Z.id.
  assert (Hpay : slice (frame [c0; c1; c2; c3] p ++ rest) 20
                   (20 + length (packet.payload p)) = packet.payload p).
  { rewrite Hsplit. unfold slice.
    rewrite skipn_app, <- Hlen, skipn_all, Nat.sub_diag, skipn_O. cbn [app].
    replace (length hdr + length (packet.payload p) - length hdr)%nat
      with (length (packet.payload p)) by lia.
    rewrite firstn_app, Nat.sub_diag, firstn_all. cbn [firstn].
    apply app_nil_r. }
  assert (Hrem : skipn (20 + length (packet.payload p))
                   (frame [c0; c1; c2; c3] p ++ rest) = rest).
  { rewrite Hsplit, <- Hlen, app_assoc.
    rewrite <- length_app, skipn_app, skipn_all, Nat.sub_diag.
    reflexivity. }
  rewrite Hpay, Hrem. reflexivity.
Qed.

(** X10: a negative sequence number is accepted by [serialize] and comes
    back from [decode_one] raised by 2^32: the message is the one encoded
    except for its counter. *)
Theorem roundtrip_negative_sequence {Data : Type}
    (parse : client.pb_class -> bytes -> option Data)
    (m : MessageType) (s : Z) (pl : bytes) (cls : client.pb_class) (d : Data) :
  client.MESSAGE_TYPE_DECODERS m = Some cls ->
  -2147483648 <= s < 0 ->
  len pl <= 32767 ->
  parse cls pl = Some d ->
  exists p' buf,
    packet.serialize (packet_of (value m) s pl) = Ok (p', buf)
    /\ client.decode_one parse buf
       = Ok (Some (message_of cls m (s + 4294967296)
                     (be32 (packet.checksum p')) pl d), []).
Proof.
  intros Hcls Hs Hl Hd.
  assert (Hfit : fits (packet_of (value m) s pl)).
  { apply packet_of_fits; [|unfold int32; lia|exact Hl].
    pose proof (value_range m). unfold int16. lia. }
  eexists _, _. split; [apply (serialize_layout _ Hfit)|].
  cbn [packet.checksum packet.set_checksum].
  set (crc := crc32 (frame (be32 0) (packet_of (value m) s pl))).
  rewrite <- (app_nil_r (frame (be32 crc) (packet_of (value m) s pl))).
  unfold be32 at 1.
  rewrite (decode_one_frame_any_sequence parse _ _ _ _ _ m).
  - assert (Hm : MessageType_eqb m HEARTBEAT = false).
    { destruct (MessageType_eqb m HEARTBEAT) eqn:E; [|reflexivity].
      apply MessageType_eqb_eq in E. subst m. discriminate Hcls. }
    rewrite Hm. unfold client.has_decoder, client.Message_init.
    rewrite Hcls, packet_of_payload, Hd.
    cbn [packet_of packet.set_sequence_number packet.sequence_number].
    replace (s mod 4294967296) with (s + 4294967296); [reflexivity|].
    rewrite <- (Z.mod_add s 1 4294967296) by lia.
    rewrite Z.mod_small; lia.
  - reflexivity.
  - now rewrite packet_of_size, packet_of_payload.
  - rewrite packet_of_payload. lia.
Qed.

Lemma roundtrip_negative_sequence_witness :
  exists p' buf,
    packet.serialize (packet_of (value LIVE) (-1) []) = Ok (p', buf)
    /\ client.decode_one parse_any buf
       = Ok (Some (message_of client.Live_pb2_Live LIVE (-1 + 4294967296)
                     (be32 (packet.checksum p')) [] []), []).
Proof.
  apply (roundtrip_negative_sequence parse_any LIVE (-1) []
           client.Live_pb2_Live []);
    [reflexivity | lia | unfold len; simpl; lia | reflexivity].
Defined.

(** ** Errors of [decode_one] and [decode] *)

Ltac settle_error_cases :=
  repeat split; try discriminate; try tauto; try lia;
  try (intros [? ?]; first [lia | contradiction]).

(** X11: [decode_one] raises the too-short DecodeError exactly on fewer than
    20 bytes and the preamble DecodeError exactly on 20 bytes or more that do
    not start with the preamble; it never raises struct.error, and the
    ValueError of [Message.__init__] for a type without decoder is never
    reached. *)
Theorem decode_one_errors {Data : Type}
    (parse : client.pb_class -> bytes -> option Data) (data : bytes) :
  (client.decode_one parse data = Raise DecodeError_TooShort
   <-> len data < 20)
  /\ (client.decode_one parse data = Raise DecodeError_Preamble
      <-> (20 <= len data /\ firstn 4 data <> client.PREAMBLE))
  /\ client.decode_one parse data <> Raise StructError
  /\ client.decode_one parse data <> Raise ValueError_NoDecoder.
Proof.
  unfold client.decode_one. change (Z.of_nat client.HEADER_SIZE) with 20.
  destruct (Z.ltb_spec (len data) 20) as [Hs|Hl]; [settle_error_cases|].
  assert (Hsl : slice data 0 4 = firstn 4 data)
    by (unfold slice; now rewrite skipn_O).
  rewrite Hsl.
  destruct (bytes_eqb (firstn 4 data) client.PREAMBLE) eqn:Ep; cbn [negb].
  2:{ assert (firstn 4 data <> client.PREAMBLE).
      { intros E. apply bytes_eqb_eq in E. congruence. }
      settle_error_cases. }
  apply bytes_eqb_eq in Ep.
  assert (Hh : exists h,
             client.unpack_header (slice data 0 client.HEADER_SIZE) = Ok h).
  { unfold slice, client.HEADER_SIZE. rewrite skipn_O. cbn [Nat.sub].
    assert (Hlen : length (firstn 20 data) = 20%nat)
      by (rewrite length_firstn; unfold len in Hl; lia).
    destruct (firstn 20 data) as [|? l]; [discriminate Hlen|].
    do 19 (destruct l as [|? l]; [discriminate Hlen|]).
    destruct l; [|discriminate Hlen]. eexists. reflexivity. }
  destruct Hh as (h & ->). cbn [bind].
  unfold MessageType_call.
  destruct (MessageType_of_value _) as [mt|]; cbn [bind];
    [|settle_error_cases].
  unfold client.has_decoder, client.Message_init.
  destruct (negb _); cbn [bind]; [|settle_error_cases].
  destruct (client.MESSAGE_TYPE_DECODERS mt); cbn [bind];
    [|settle_error_cases].
  destruct (parse _ _); cbn [bind]; settle_error_cases.
Qed.

Section decode_more.

Context {Data : Type}.
Variable parse : client.pb_class -> bytes -> option Data.

Lemma decode_loop_bad_tail (fs : list wire_frame) (junk : bytes)
    (e : exception) :
  Forall (sendable parse) fs ->
  junk <> [] ->
  client.decode_one parse junk = Raise e ->
  forall fuel acc,
    (length (concat (map on_wire fs) ++ junk) <= fuel)%nat ->
    client.decode_loop parse fuel (concat (map on_wire fs) ++ junk) acc
    = Raise e.
Proof.
  intros Hfs Hj He. induction Hfs as [|f fs Hf Hfs IH]; intros fuel acc Hfuel.
  - cbn [map concat app] in *.
    destruct junk as [|x junk]; [contradiction|].
    destruct fuel as [|fuel]; [cbn [length] in Hfuel; lia|].
    cbn [client.decode_loop].
    destruct (Z.gtb_spec (len (x :: junk)) 0) as [_|Hz];
      [|unfold len in Hz; cbn [length] in Hz; lia].
    now rewrite He.
  - cbn [map concat] in *. rewrite <- app_assoc in *.
    pose proof (on_wire_nonempty parse f (concat (map on_wire fs) ++ junk) Hf)
      as Hne.
    pose proof (on_wire_nonempty parse f [] Hf) as Hne'.
    destruct fuel as [|fuel]; [lia|].
    cbn [client.decode_loop].
    destruct (Z.gtb_spec
                (len (on_wire f ++ concat (map on_wire fs) ++ junk)) 0)
      as [_|Hz]; [|unfold len in Hz; lia].
    rewrite (decode_one_on_wire parse f _ Hf). cbn [bind].
    apply IH. rewrite !length_app in *. cbn [length] in Hne'. lia.
Qed.

Lemma decode_loop_count (fuel : nat) :
  forall data acc msgs,
    client.decode_loop parse fuel data acc = Ok msgs ->
    (20 * length msgs <= 20 * length acc + length data)%nat.
Proof.
  induction fuel as [|fuel IH]; intros data acc msgs; cbn [client.decode_loop].
  - destruct (len data >? 0); [discriminate|]. intros [= <-]. lia.
  - destruct (len data >? 0); [|intros [= <-]; lia].
    destruct (client.decode_one parse data) as [[m r]| |] eqn:E;
      cbn [bind]; try discriminate.
    intros H. apply IH in H. apply decode_one_consumes in E.
    rewrite length_app in H. cbn [length] in H. lia.
Qed.

End decode_more.

(** X12: [decode] is all or nothing: when the bytes after a run of frames
    make [decode_one] raise, [decode] raises that error and the messages of
    the frames before are not returned. *)
Theorem decode_aborts_on_bad_tail {Data : Type}
    (parse : client.pb_class -> bytes -> option Data)
    (fs : list wire_frame) (junk : bytes) (e : exception) :
  Forall (sendable parse) fs ->
  junk <> [] ->
  client.decode_one parse junk = Raise e ->
  client.decode parse (concat (map on_wire fs) ++ junk) = Raise e.
Proof.
  intros Hfs Hj He. unfold client.decode.
  now apply decode_loop_bad_tail.
Qed.

Lemma decode_aborts_on_bad_tail_witness :
  client.decode parse_any
    (concat (map on_wire [mkWire LIVE 3 [x08; x01]]) ++ [xab; xad])
  = Raise DecodeError_TooShort.
Proof.
  apply (decode_aborts_on_bad_tail parse_any [mkWire LIVE 3 [x08; x01]]
           [xab; xad] DecodeError_TooShort);
    [|discriminate|reflexivity].
  repeat constructor; unfold len; simpl; try lia.
  intros cls _. eexists. reflexivity.
Defined.

(** X13: [decode] always returns or raises, whatever the bytes, and a list
    it returns has at most one entry per 20 bytes of data. *)
Theorem decode_entries_bounded {Data : Type}
    (parse : client.pb_class -> bytes -> option Data) (data : bytes) :
  client.decode parse data <> OutOfFuel
  /\ forall msgs, client.decode parse data = Ok msgs ->
                  (20 * length msgs <= length data)%nat.
Proof.
  split; [apply decode_total|].
  intros msgs H. apply decode_loop_count in H. cbn [length] in H. lia.
Qed.

Lemma decode_entries_bounded_witness :
  (20 * length (map (surfaced parse_any)
                  [mkWire LIVE 3 [x08; x01]; heartbeat_frame])
   <= length (concat (map on_wire
                        [mkWire LIVE 3 [x08; x01]; heartbeat_frame])))%nat.
Proof.
  apply (proj2 (decode_entries_bounded parse_any
                  (concat (map on_wire
                             [mkWire LIVE 3 [x08; x01]; heartbeat_frame])))).
  vm_compute. reflexivity.
Defined.

(** ** Requests *)

Lemma request_bytes_length (types : list MessageType) :
  length (request_bytes types) = (20 * length types)%nat.
Proof.
  unfold request_bytes. induction types as [|t types IH].
  - reflexivity.
  - cbn [map concat]. rewrite length_app, IH.
    destruct (on_wire_frame (mkWire t 0 []) ltac:(cbn; lia)
                ltac:(unfold len; cbn; lia))
      as (c0 & c1 & c2 & c3 & Hw & _).
    rewrite Hw.
    pose proof (frame_length c0 c1 c2 c3 (packet_of (value t) 0 [])) as Hl.
    rewrite packet_of_payload in Hl. unfold len in Hl. cbn [length] in *.
    cbn [wire_type wire_sequence wire_payload]. lia.
Qed.

(** X14: [write_requested_messages] on an open session makes one sendall of
    one 20-byte frame per requested type; a list or tuple is first turned
    into a set, so the frames are those of its distinct members, each once;
    without a connection it raises ConnectionError and changes nothing. *)
Theorem write_requested_messages_spec (self : client.ArcticSpaClient)
    (arg : client.message_types_arg) :
  (client._conn self = None ->
   client.write_requested_messages self arg = (self, Raise ConnectionError))
  /\ (forall conn,
        client._conn self = Some conn ->
        client.write_requested_messages self arg
        = (client.set_conn self
             (Some (client.sendall conn
                      (request_bytes
                         (client.iterate (client.normalize arg))))),
           Ok tt)
        /\ length (request_bytes (client.iterate (client.normalize arg)))
           = (20 * length (client.iterate (client.normalize arg)))%nat)
  /\ (forall l,
        NoDup (client.iterate (client.normalize (client.type_list l)))
        /\ forall t,
             In t (client.iterate (client.normalize (client.type_list l)))
             <-> In t l).
Proof.
  split; [|split].
  - intros Hc. unfold client.write_requested_messages. now rewrite Hc.
  - intros conn Hc. split; [|apply request_bytes_length].
    unfold client.write_requested_messages.
    now rewrite Hc, command_packets_ok.
  - intros l. cbn [client.normalize client.iterate]. split.
    + apply NoDup_elements.
    + intros t. rewrite <- !list_elem_of_In, elem_of_elements.
      apply elem_of_list_to_set.
Qed.

Lemma write_requested_messages_spec_witness :
  client.write_requested_messages connected_client
    (client.type_list [LIVE; LIVE])
  = (client.set_conn connected_client
       (Some (client.sendall fresh_socket
                (request_bytes
                   (client.iterate
                      (client.normalize (client.type_list [LIVE; LIVE])))))),
     Ok tt)
  /\ length (request_bytes
               (client.iterate
                  (client.normalize (client.type_list [LIVE; LIVE]))))
     = (20 * length (client.iterate
                       (client.normalize (client.type_list [LIVE; LIVE]))))%nat.
Proof.
  apply (proj1 (proj2 (write_requested_messages_spec connected_client
                         (client.type_list [LIVE; LIVE])))).
  reflexivity.
Defined.

(** ** A closed session *)

(** X15: after [disconnect] the client is not connected, a second
    [disconnect] changes nothing, and every operation that needs the
    connection raises ConnectionError and leaves the client as it is. *)
Theorem disconnected_operations_raise {Data : Type}
    (parse : client.pb_class -> bytes -> option Data)
    (serialize_command : string -> client.py_value -> option bytes)
    (recv : nat -> bytes) (time : nat -> PrimFloat.float)
    (self : client.ArcticSpaClient) (fuel : nat)
    (arg : client.message_types_arg) (t : MessageType)
    (timeout : option PrimFloat.float) (c : client.CommandType)
    (v : client.py_value) :
  let closed := client.disconnect self in
  client.is_connected closed = false
  /\ client.disconnect closed = closed
  /\ client.read_raw_stream_data recv closed = (closed, Raise ConnectionError)
  /\ client.read_messages parse recv closed = (closed, Raise ConnectionError)
  /\ client.write_requested_messages closed arg
     = (closed, Raise ConnectionError)
  /\ client.poll_messages parse recv time fuel closed arg timeout
     = (closed, Raise ConnectionError)
  /\ client.fetch_one parse recv time fuel closed t timeout
     = (closed, Raise ConnectionError)
  /\ client.write_command serialize_command closed c v
     = (closed, Raise ConnectionError).
Proof.
  intros closed.
  assert (Hc : client._conn closed = None).
  { unfold closed, client.disconnect.
    destruct (client._conn self) eqn:E; [reflexivity|exact E]. }
  unfold client.is_connected, client.disconnect, client.read_raw_stream_data,
    client.read_messages, client.write_requested_messages,
    client.poll_messages, client.fetch_one, client.write_command,
    client.is_connected.
  rewrite Hc. cbn [negb]. repeat split; reflexivity.
Qed.

(** ** More on polling *)

Lemma reads_then_one (conn : client.socket) (n : nat) :
  reads (reads conn n) 1 = reads conn (S n).
Proof.
  unfold reads. cbn [client.opened_by client.trace client.recv_calls].
  f_equal; [|lia].
  rewrite <- app_assoc. f_equal. cbn [repeat]. symmetry. apply repeat_cons.
Qed.

Section poll_more.

Context {Data : Type}.
Variable parse : client.pb_class -> bytes -> option Data.
Variable recv : nat -> bytes.
Variable time : nat -> PrimFloat.float.

(** While reads leave a requested type unseen, the loop goes round. *)
Lemma poll_loop_pending (types : list MessageType)
    (timeout : option PrimFloat.float) (n : nat) :
  forall fuel self conn c prefix,
    client._conn self = Some conn ->
    (forall i, (i < n)%nat -> expired time timeout (c + i) = false) ->
    (forall i, (i < n)%nat ->
       exists ms, client.decode parse (recv (client.recv_calls conn + i))
                  = Ok ms) ->
    (forall i, (i < n)%nat ->
       all_observed types
         (present (prefix ++ seen parse recv (client.recv_calls conn) (S i)))
       = false) ->
    client._poll_loop parse recv time (n + fuel) self c (time 0%nat) timeout
      (client.record_messages (client.requested_dict types) prefix)
    = client._poll_loop parse recv time fuel
        (client.set_conn self (Some (reads conn n)))
        (if client.truthy_float timeout then (c + n)%nat else c)
        (time 0%nat) timeout
        (client.record_messages (client.requested_dict types)
           (prefix ++ seen parse recv (client.recv_calls conn) n)).
Proof.
  induction n as [|n IH]; intros fuel self conn c prefix Hc He Hd Hp.
  - cbn [Nat.add seen]. rewrite reads_0, (set_conn_same self conn Hc).
    rewrite app_nil_r, Nat.add_0_r. now destruct (client.truthy_float timeout).
  - destruct (Hd 0%nat ltac:(lia)) as (ms & Hms).
    rewrite Nat.add_0_r in Hms.
    pose proof (He 0%nat ltac:(lia)) as He0. rewrite Nat.add_0_r in He0.
    cbn [Nat.add].
    rewrite (poll_loop_unfold parse recv time _ _ _ _ _ _ _ Hc He0 Hms).
    rewrite record_messages_app, None_in_values_record.
    assert (Hseen1 : seen parse recv (client.recv_calls conn) 1 = ms)
      by (cbn [seen]; unfold chunk_messages; rewrite Hms; apply app_nil_r).
    pose proof (Hp 0%nat ltac:(lia)) as Hp0. rewrite Hseen1 in Hp0.
    rewrite Hp0. cbn [negb].
    assert (Hshift : forall j,
               prefix ++ seen parse recv (client.recv_calls conn) (S j)
               = (prefix ++ ms)
                 ++ seen parse recv (S (client.recv_calls conn)) j).
    { intros j. rewrite <- app_assoc. f_equal. cbn [seen].
      unfold chunk_messages at 1. now rewrite Hms. }
    assert (Hr1 : client.recv_calls (reads conn 1)
                  = S (client.recv_calls conn))
      by (cbn; lia).
    rewrite (IH fuel _ (reads conn 1) _ (prefix ++ ms)).
    + rewrite set_conn_twice, reads_S, Hr1, <- Hshift.
      destruct (client.truthy_float timeout); [|reflexivity].
      f_equal. lia.
    + reflexivity.
    + intros i Hi. destruct (client.truthy_float timeout) eqn:Et.
      * rewrite <- (He (S i)) by lia. f_equal. lia.
      * now apply expired_falsy.
    + intros i Hi. rewrite Hr1. destruct (Hd (S i) ltac:(lia)) as (ms' & H').
      exists ms'. rewrite <- H'. f_equal. f_equal. lia.
    + intros i Hi. rewrite Hr1, <- Hshift. apply Hp. lia.
Qed.

Lemma poll_loop_decode_error (fuel : nat) (self : client.ArcticSpaClient)
    (conn : client.socket) (c : nat) (timeout : option PrimFloat.float)
    (req : gmap MessageType (option (client.Message Data))) (e : exception) :
  client._conn self = Some conn ->
  expired time timeout c = false ->
  client.decode parse (recv (client.recv_calls conn)) = Raise e ->
  client._poll_loop parse recv time (S fuel) self c (time 0%nat) timeout req
  = (client.set_conn self (Some (reads conn 1)), Raise e).
Proof.
  intros Hc He Hd. cbn [client._poll_loop].
  fold (expired time timeout c). rewrite He.
  now rewrite (read_messages_connected parse recv self conn Hc), Hd.
Qed.

Lemma poll_messages_returns (self : client.ArcticSpaClient)
    (conn : client.socket) (arg : client.message_types_arg)
    (timeout : option PrimFloat.float) (n fuel : nat) :
  client._conn self = Some conn ->
  (forall i, (i <= n)%nat -> expired time timeout (1 + i) = false) ->
  (forall i, (i <= n)%nat ->
     exists ms, client.decode parse (recv (client.recv_calls conn + i)%nat)
                = Ok ms) ->
  (forall i, (i < n)%nat ->
     all_observed (client.iterate (client.normalize arg))
       (present (seen parse recv (client.recv_calls conn) (S i))) = false) ->
  all_observed (client.iterate (client.normalize arg))
    (present (seen parse recv (client.recv_calls conn) (S n))) = true ->
  (n < fuel)%nat ->
  client.poll_messages parse recv time fuel self arg timeout
  = (polled self conn
       (request_bytes
          (client.iterate (client.normalize (client.normalize arg))))
       (S n),
     Ok (client.record_messages
           (client.requested_dict (client.iterate (client.normalize arg)))
           (seen parse recv (client.recv_calls conn) (S n)))).
Proof.
  intros Hc He Hd Hp Hf Hfuel.
  rewrite (poll_messages_unfold parse recv time fuel self conn arg timeout Hc).
  set (request := request_bytes
                    (client.iterate (client.normalize (client.normalize arg)))).
  rewrite (poll_loop_completes parse recv time
             (client.iterate (client.normalize arg)) timeout n fuel
             (client.set_conn self (Some (client.sendall conn request)))
             (client.sendall conn request) 1 []); try assumption; reflexivity.
Qed.

Lemma last_of_type (t : MessageType) (l : list (client.Message Data))
    (m : client.Message Data) :
  last_of t l = Some m -> client.message_type m = t.
Proof.
  induction l as [|x l IH]; cbn [last_of]; [discriminate|].
  destruct (last_of t l) as [y|].
  - intros [= <-]. now apply IH.
  - destruct (MessageType_eqb (client.message_type x) t) eqn:E;
      [|discriminate].
    intros [= <-]. now apply MessageType_eqb_eq.
Qed.

End poll_more.

(** X16: a chunk that [decode] rejects ends the poll with that error: after
    [n] reads that leave a requested type unseen, a read whose chunk makes
    [decode] raise makes [poll_messages] raise the same error, with no dict
    returned. *)
Theorem poll_messages_decode_error {Data : Type}
    (parse : client.pb_class -> bytes -> option Data) (recv : nat -> bytes)
    (time : nat -> PrimFloat.float)
    (self : client.ArcticSpaClient) (conn : client.socket)
    (arg : client.message_types_arg) (timeout : option PrimFloat.float)
    (n fuel : nat) (e : exception) :
  client._conn self = Some conn ->
  (forall i, (i <= n)%nat -> expired time timeout (1 + i) = false) ->
  (forall i, (i < n)%nat ->
     exists ms, client.decode parse (recv (client.recv_calls conn + i)%nat)
                = Ok ms) ->
  (forall i, (i < n)%nat ->
     all_observed (client.iterate (client.normalize arg))
       (present (seen parse recv (client.recv_calls conn) (S i))) = false) ->
  client.decode parse (recv (client.recv_calls conn + n)%nat) = Raise e ->
  (n < fuel)%nat ->
  client.poll_messages parse recv time fuel self arg timeout
  = (polled self conn
       (request_bytes
          (client.iterate (client.normalize (client.normalize arg))))
       (S n),
     Raise e).
Proof.
  intros Hc He Hd Hp Hbad Hfuel.
  rewrite (poll_messages_unfold parse recv time fuel self conn arg timeout Hc).
  set (request := request_bytes
                    (client.iterate (client.normalize (client.normalize arg)))).
  replace fuel with (n + S (fuel - S n))%nat by lia.
  rewrite (poll_loop_pending parse recv time
             (client.iterate (client.normalize arg)) timeout n _
             (client.set_conn self (Some (client.sendall conn request)))
             (client.sendall conn request) 1 []);
    [|reflexivity|intros i Hi; apply He; lia|exact Hd|exact Hp].
  rewrite (poll_loop_decode_error parse recv time _ _
             (reads (client.sendall conn request) n) _ _ _ e).
  - unfold polled. now rewrite set_conn_twice, reads_then_one.
  - reflexivity.
  - destruct (client.truthy_float timeout) eqn:Et;
      [apply He; lia|now apply expired_falsy].
  - exact Hbad.
Qed.

Lemma poll_messages_decode_error_witness :
  client.poll_messages parse_any stray_feed still_clock 1 connected_client
    (client.one_type LIVE) five_seconds
  = (polled connected_client fresh_socket
       (request_bytes
          (client.iterate
             (client.normalize (client.normalize (client.one_type LIVE)))))
       1,
     Raise DecodeError_TooShort).
Proof.
  apply (poll_messages_decode_error parse_any stray_feed still_clock
           connected_client fresh_socket (client.one_type LIVE) five_seconds
           0 1 DecodeError_TooShort);
    [reflexivity | intros i _; reflexivity | intros i Hi; lia
    | intros i Hi; lia | reflexivity | lia].
Defined.

(** X17: [fetch_one] returns a message, never None and never a KeyError:
    when the first [n] reads bring no message of the type and the next one
    does, it returns the last message of that type read, and that message
    has the requested type. *)
Theorem fetch_one_returns_last {Data : Type}
    (parse : client.pb_class -> bytes -> option Data) (recv : nat -> bytes)
    (time : nat -> PrimFloat.float)
    (self : client.ArcticSpaClient) (conn : client.socket)
    (t : MessageType) (timeout : option PrimFloat.float)
    (n fuel : nat) (msg : client.Message Data) :
  client._conn self = Some conn ->
  (forall i, (i <= n)%nat -> expired time timeout (1 + i) = false) ->
  (forall i, (i <= n)%nat ->
     exists ms, client.decode parse (recv (client.recv_calls conn + i)%nat)
                = Ok ms) ->
  (forall i, (i < n)%nat ->
     last_of t (present (seen parse recv (client.recv_calls conn) (S i)))
     = None) ->
  last_of t (present (seen parse recv (client.recv_calls conn) (S n)))
  = Some msg ->
  (n < fuel)%nat ->
  client.fetch_one parse recv time fuel self t timeout
  = (polled self conn (request_bytes [t]) (S n), Ok (client.item _ (Some msg)))
  /\ client.message_type msg = t.
Proof.
  intros Hc He Hd Hp Hf Hfuel. split; [|exact (last_of_type t _ msg Hf)].
  unfold client.fetch_one, client.is_connected. rewrite Hc. cbn [negb].
  rewrite (poll_messages_returns parse recv time self conn
             (client.one_type t) timeout n fuel Hc He Hd).
  - cbn [client.normalize client.iterate].
    rewrite record_messages_lookup, Hf.
    replace (elements (list_to_set [t] : gset MessageType)) with [t];
      [reflexivity|].
    change (list_to_set [t] : gset MessageType) with ({[t]} ∪ ∅ : gset _).
    now rewrite union_empty_r_L, elements_singleton.
  - intros i Hi. cbn [client.normalize client.iterate all_observed forallb].
    now rewrite (Hp i Hi).
  - cbn [client.normalize client.iterate all_observed forallb].
    now rewrite Hf.
  - exact Hfuel.
Qed.

Lemma fetch_one_returns_last_witness :
  exists msg,
    last_of LIVE (present (seen parse_any poll_feed 0 1)) = Some msg
    /\ client.fetch_one parse_any poll_feed still_clock 1 connected_client
         LIVE five_seconds
       = (polled connected_client fresh_socket (request_bytes [LIVE]) 1,
          Ok (client.item _ (Some msg)))
    /\ client.message_type msg = LIVE.
Proof.
  destruct (last_of LIVE (present (seen parse_any poll_feed 0 1)))
    as [msg|] eqn:E; [|vm_compute in E; discriminate E].
  exists msg. split; [reflexivity|].
  apply (fetch_one_returns_last parse_any poll_feed still_clock
           connected_client fresh_socket LIVE five_seconds 0 1 msg);
    [reflexivity | intros i _; reflexivity | | intros i Hi; lia
    | exact E | lia].
  intros i Hi. assert (i = 0)%nat as -> by lia.
  exists (chunk_messages parse_any poll_feed 0). vm_compute. reflexivity.
Defined.

(** X18: with an empty list of types [poll_messages] still sends (an empty
    byte string) and still reads one chunk: it returns after that single
    read, and the dict holds, for every type in the chunk, the last message
    of that type. *)
Theorem poll_messages_empty_request {Data : Type}
    (parse : client.pb_class -> bytes -> option Data) (recv : nat -> bytes)
    (time : nat -> PrimFloat.float)
    (self : client.ArcticSpaClient) (conn : client.socket)
    (timeout : option PrimFloat.float) (fuel : nat)
    (ms : list (option (client.Message Data))) :
  client._conn self = Some conn ->
  expired time timeout 1 = false ->
  client.decode parse (recv (client.recv_calls conn)) = Ok ms ->
  (0 < fuel)%nat ->
  exists result,
    client.poll_messages parse recv time fuel self (client.type_list [])
      timeout
    = (polled self conn [] 1, Ok result)
    /\ forall t, result !! t = Some <$> last_of t (present ms).
Proof.
  intros Hc He Hd Hfuel.
  assert (Hseen : seen parse recv (client.recv_calls conn) 1 = ms)
    by (cbn [seen]; unfold chunk_messages; rewrite Hd; apply app_nil_r).
  assert (Hel : client.iterate (client.normalize (client.type_list [])) = [])
    by exact (elements_empty (C := gset MessageType)).
  assert (Hel2 : client.iterate
                   (client.normalize (client.normalize (client.type_list [])))
                 = []) by exact (elements_empty (C := gset MessageType)).
  eexists. split.
  - rewrite (poll_messages_returns parse recv time self conn
               (client.type_list []) timeout 0 fuel Hc).
    + rewrite Hel, Hel2. reflexivity.
    + intros i Hi. assert (i = 0)%nat as -> by lia. exact He.
    + intros i Hi. assert (i = 0)%nat as -> by lia.
      rewrite Nat.add_0_r. eauto.
    + intros i Hi. lia.
    + now rewrite Hel.
    + exact Hfuel.
  - intros t. rewrite record_messages_lookup, Hseen.
    destruct (last_of t (present ms)); reflexivity.
Qed.

Lemma poll_messages_empty_request_witness :
  exists result,
    client.poll_messages parse_any poll_feed still_clock 1 connected_client
      (client.type_list []) five_seconds
    = (polled connected_client fresh_socket [] 1, Ok result)
    /\ forall t,
         result !! t
         = Some <$> last_of t (present (chunk_messages parse_any poll_feed 0)).
Proof.
  apply (poll_messages_empty_request parse_any poll_feed still_clock
           connected_client fresh_socket five_seconds 1
           (chunk_messages parse_any poll_feed 0));
    [reflexivity | reflexivity | vm_compute; reflexivity | lia].
Defined.

(** ** More on [connect] *)

Section connect_more.

Variable dialer : nat -> client.dial.


Lemma async_connect_unfold (fuel : nat)
    (self : arctic_spa_client.ArcticSpaClient) (d : nat)
    (host : option string) (port : option Z) (attempts : Z) :
  client.truthy_str
    (arctic_spa_client.host (async_configured self host port)) = true ->
  arctic_spa_client.connect dialer fuel self d host port attempts
  = match arctic_spa_client.connect_loop dialer fuel
            (async_configured self host port) d 0 attempts with
    | (self, dials, Ok (client.returned b)) => (self, dials, Ok b)
    | (self, dials, Ok client.left_loop) =>
        (self, dials, Ok (arctic_spa_client.is_connected self))
    | (self, dials, Raise e) => (self, dials, Raise e)
    | (self, dials, OutOfFuel) => (self, dials, OutOfFuel)
    end.
Proof.
  intros Hh. unfold arctic_spa_client.connect.
  fold (async_configured self host port). now rewrite Hh.
Qed.

Lemma async_configured_disconnected
    (self : arctic_spa_client.ArcticSpaClient) (host : option string)
    (port : option Z) :
  arctic_spa_client._writer (async_configured self host port) = None.
Proof.
  unfold async_configured, arctic_spa_client.disconnect.
  destruct (arctic_spa_client._writer self) eqn:E, (client.truthy_str host),
    (client.truthy_int port); cbn; try reflexivity; exact E.
Qed.

End connect_more.



(** X20: without a host, neither given nor configured, both [connect]s
    raise ValueError before any call of the transport, and the client has
    by then dropped the connection it held. *)
Theorem connect_without_host (dialer : nat -> client.dial) (fuel d : nat)
    (self : client.ArcticSpaClient)
    (aself : arctic_spa_client.ArcticSpaClient)
    (host : option string) (port : option Z) (attempts : Z) :
  (client.truthy_str (client.host (configured self host port)) = false ->
   client.connect dialer fuel self d host port attempts
   = (configured self host port, d, Raise ValueError_NoHost)
   /\ client.is_connected (configured self host port) = false)
  /\ (client.truthy_str
        (arctic_spa_client.host (async_configured aself host port)) = false ->
      arctic_spa_client.connect dialer fuel aself d host port attempts
      = (async_configured aself host port, d, Raise ValueError_NoHost)
      /\ arctic_spa_client.is_connected (async_configured aself host port)
         = false).
Proof.
  split; intros Hh.
  - split.
    + unfold client.connect. fold (configured self host port). now rewrite Hh.
    + unfold client.is_connected. now rewrite configured_disconnected.
  - split.
    + unfold arctic_spa_client.connect.
      fold (async_configured aself host port). now rewrite Hh.
    + unfold arctic_spa_client.is_connected.
      now rewrite async_configured_disconnected.
Qed.

Lemma connect_without_host_witness :
  client.connect always_ok 1 (client.set_host connected_client None) 0 None
    None 1
  = (configured (client.set_host connected_client None) None None, 0%nat,
     Raise ValueError_NoHost)
  /\ client.is_connected
       (configured (client.set_host connected_client None) None None)
     = false.
Proof.
  apply (proj1 (connect_without_host always_ok 1 0
                  (client.set_host connected_client None)
                  (arctic_spa_client.ArcticSpaClient_init None None)
                  None None 1)).
  reflexivity.
Defined.

Lemma connect_loops_agree (dialer : nat -> client.dial) :
  (forall j, dialer j <> client.dial_ok) ->
  forall fuel s a d attempt attempts,
    client.connect_loop dialer fuel s d attempt attempts
    = (s, snd (fst (client.connect_loop dialer fuel s d attempt attempts)),
       snd (client.connect_loop dialer fuel s d attempt attempts))
    /\ arctic_spa_client.connect_loop dialer fuel a d attempt attempts
       = (a, snd (fst (client.connect_loop dialer fuel s d attempt attempts)),
          snd (client.connect_loop dialer fuel s d attempt attempts)).
Proof.
  intros Hno. induction fuel as [|fuel IH]; intros s a d attempt attempts.
  - split; reflexivity.
  - cbn [client.connect_loop arctic_spa_client.connect_loop].
    destruct (attempt <? attempts); [|split; reflexivity].
    destruct (dialer d) eqn:E.
    + now destruct (Hno d).
    + apply IH.
    + split; reflexivity.
Qed.

(** X21: the two clients differ only through a successful attempt: on a
    transport where no call succeeds, the blocking and the asyncio
    [connect], started with the same host, make the same number of calls
    and end with the same result, both disconnected. *)
Theorem connect_variants_agree_without_success (dialer : nat -> client.dial)
    (fuel d : nat) (self : client.ArcticSpaClient)
    (aself : arctic_spa_client.ArcticSpaClient)
    (host : option string) (port : option Z) (attempts : Z) :
  (forall j, dialer j <> client.dial_ok) ->
  client.host self = arctic_spa_client.host aself ->
  snd (client.connect dialer fuel self d host port attempts)
  = snd (arctic_spa_client.connect dialer fuel aself d host port attempts)
  /\ snd (fst (client.connect dialer fuel self d host port attempts))
     = snd (fst (arctic_spa_client.connect dialer fuel aself d host port
                   attempts))
  /\ client.is_connected
       (fst (fst (client.connect dialer fuel self d host port attempts)))
     = false
  /\ arctic_spa_client.is_connected
       (fst (fst (arctic_spa_client.connect dialer fuel aself d host port
                    attempts)))
     = false.
Proof.
  intros Hno Hhost.
  assert (Hh : client.host (configured self host port)
               = arctic_spa_client.host (async_configured aself host port)).
  { unfold configured, async_configured, client.disconnect,
      arctic_spa_client.disconnect.
    destruct (client._conn self), (arctic_spa_client._writer aself),
      (client.truthy_str host), (client.truthy_int port); cbn;
      try reflexivity; exact Hhost. }
  pose proof (configured_disconnected self host port) as Hc.
  pose proof (async_configured_disconnected aself host port) as Ha.
  unfold client.connect, arctic_spa_client.connect.
  fold (configured self host port). fold (async_configured aself host port).
  rewrite <- Hh.
  destruct (client.truthy_str (client.host (configured self host port)));
    cbn [negb].
  - destruct (connect_loops_agree dialer Hno fuel (configured self host port)
                (async_configured aself host port) d 0 attempts) as [H1 H2].
    rewrite H1, H2.
    unfold client.is_connected, arctic_spa_client.is_connected.
    destruct (snd (client.connect_loop dialer fuel _ d 0 attempts))
      as [[b|]| |]; cbn [fst snd]; rewrite ?Hc, ?Ha; repeat split.
  - cbn [fst snd]. unfold client.is_connected, arctic_spa_client.is_connected.
    rewrite Hc, Ha. repeat split.
Qed.

Lemma connect_variants_agree_without_success_witness :
  snd (client.connect always_timeout 3 blocking_client 0 None None 2)
  = snd (arctic_spa_client.connect always_timeout 3 asyncio_client 0 None
           None 2)
  /\ snd (fst (client.connect always_timeout 3 blocking_client 0 None None 2))
     = snd (fst (arctic_spa_client.connect always_timeout 3 asyncio_client 0
                   None None 2))
  /\ client.is_connected
       (fst (fst (client.connect always_timeout 3 blocking_client 0 None None
                    2)))
     = false
  /\ arctic_spa_client.is_connected
       (fst (fst (arctic_spa_client.connect always_timeout 3 asyncio_client 0
                    None None 2)))
     = false.
Proof.
  apply (connect_variants_agree_without_success always_timeout 3 0
           blocking_client asyncio_client None None 2);
    [intros j; discriminate | reflexivity].
Defined.

(** ** More on commands *)

(** X22: [_validate_command] accepts a value exactly when it is an instance
    of the class of the command and, for the temperature setpoint, lies in
    59..104; what it returns is the command's property name with the value
    unchanged; it never raises the invalid-command-type ValueError. *)
Theorem validate_command_accepts (c : client.CommandType)
    (v : client.py_value) :
  ((exists r, client._validate_command c v = Ok r)
   <-> (exists cls,
          client.command_type_value_class c = Some cls
          /\ client.isinstance v cls = true
          /\ (c = client.TEMPERATURE_SETPOINT_FAHRENHEIT ->
              59 <= client.as_int v <= 104)))
  /\ (forall r, client._validate_command c v = Ok r ->
                r = (client.CommandType_value c, v))
  /\ client._validate_command c v <> Raise ValueError_CommandType.
Proof.
  unfold client._validate_command.
  assert (Hcls : exists cls, client.command_type_value_class c = Some cls)
    by (destruct c; eexists; reflexivity).
  destruct Hcls as (cls & Hcls). rewrite Hcls.
  assert (Hint : client.isinstance v client.class_int = true)
    by (destruct v; reflexivity).
  rewrite Hint. cbn [orb negb].
  destruct (client.isinstance v cls) eqn:Ei; cbn [negb].
  2:{ split; [split|split]; try discriminate.
      - intros (r & Hr). discriminate Hr.
      - intros (cls' & Hc' & Hi' & _). congruence. }
  unfold client.MIN_TEMPERATURE, client.MAX_TEMPERATURE.
  destruct (client.is_temperature c) eqn:Et.
  - assert (c = client.TEMPERATURE_SETPOINT_FAHRENHEIT)
      by (destruct c; try discriminate Et; reflexivity).
    destruct (Z.ltb_spec (client.as_int v) 59) as [Hlo|Hlo]; cbn [bind].
    { split; [split|split]; try discriminate.
      - intros (r & Hr). discriminate Hr.
      - intros (cls' & _ & _ & Hr). specialize (Hr ltac:(assumption)). lia. }
    destruct (Z.gtb_spec (client.as_int v) 104) as [Hhi|Hhi]; cbn [bind].
    { split; [split|split]; try discriminate.
      - intros (r & Hr). discriminate Hr.
      - intros (cls' & _ & _ & Hr). specialize (Hr ltac:(assumption)). lia. }
    split; [split|split]; try discriminate.
    + intros _. exists cls. split; [reflexivity|]. split; [assumption|].
      intros _. lia.
    + intros _. eauto.
    + intros r [= <-]. reflexivity.
  - cbn [bind]. split; [split|split]; try discriminate.
    + intros _. exists cls. split; [reflexivity|]. split; [assumption|].
      intros ->. discriminate Et.
    + intros _. eauto.
    + intros r [= <-]. reflexivity.
Qed.

Lemma validate_command_accepts_witness :
  exists cls,
    client.command_type_value_class client.LIGHTS = Some cls
    /\ client.isinstance (client.py_bool true) cls = true
    /\ (client.LIGHTS = client.TEMPERATURE_SETPOINT_FAHRENHEIT ->
        59 <= client.as_int (client.py_bool true) <= 104).
Proof.
  apply (proj1 (proj1 (validate_command_accepts client.LIGHTS
                         (client.py_bool true)))).
  eexists. reflexivity.
Defined.

(** X23: an accepted command whose serialized payload has at most 32767
    bytes goes out as one sendall of one frame of type COMMAND, sequence
    number 0, carrying that payload, which [decode_one] reads back as a
    COMMAND message with the same payload; a longer payload makes
    [write_command] raise struct.error with nothing sent. *)
Theorem write_command_sends_frame {Data : Type}
    (parse : client.pb_class -> bytes -> option Data)
    (serialize_command : string -> client.py_value -> option bytes)
    (self : client.ArcticSpaClient) (conn : client.socket)
    (c : client.CommandType) (v : client.py_value) (buffer : bytes) :
  client._conn self = Some conn ->
  client._validate_command c v = Ok (client.CommandType_value c, v) ->
  serialize_command (client.CommandType_value c) v = Some buffer ->
  (len buffer <= 32767 ->
   client.write_command serialize_command self c v
   = (client.set_conn self
        (Some (client.sendall conn (on_wire (mkWire COMMAND 0 buffer)))),
      Ok tt)
   /\ forall d,
        parse client.Command_pb2_Command buffer = Some d ->
        client.decode_one parse (on_wire (mkWire COMMAND 0 buffer))
        = Ok (Some (message_of client.Command_pb2_Command COMMAND 0
                      (firstn 4 (skipn 4 (on_wire (mkWire COMMAND 0 buffer))))
                      buffer d), []))
  /\ (32767 < len buffer ->
      client.write_command serialize_command self c v
      = (self, Raise StructError)).
Proof.
  intros Hc Hv Hser.
  assert (Hp : packet.Packet_init (value COMMAND) (Some buffer)
               = packet_of (value COMMAND) 0 buffer) by reflexivity.
  split.
  - intros Hl.
    assert (Hfit : fits (packet_of (value COMMAND) 0 buffer)).
    { apply packet_of_fits; [unfold int16; cbn; lia|unfold int32; lia|].
      exact Hl. }
    split.
    + unfold client.write_command. rewrite Hc, Hv, Hser, Hp.
      unfold on_wire. cbn [wire_type wire_sequence wire_payload].
      now rewrite (serialize_layout _ Hfit).
    + intros d Hd.
      assert (Hsend : sendable parse (mkWire COMMAND 0 buffer)).
      { repeat split; cbn [wire_sequence wire_payload wire_type];
          try lia; try exact Hl.
        intros cls [= <-]. eauto. }
      pose proof (decode_one_on_wire parse (mkWire COMMAND 0 buffer) []
                    Hsend) as Hdec.
      rewrite app_nil_r in Hdec. rewrite Hdec. unfold surfaced.
      cbn [wire_type wire_sequence wire_payload MessageType_eqb value
           Z.eqb client.MESSAGE_TYPE_DECODERS].
      now rewrite Hd.
  - intros Hl. unfold client.write_command. rewrite Hc, Hv, Hser, Hp.
    rewrite serialize_unfit; [reflexivity|].
    intros (_ & _ & _ & Hz). rewrite packet_of_size in Hz.
    unfold int16 in Hz. lia.
Qed.

Lemma write_command_sends_frame_witness :
  client.write_command (fun _ _ => Some [x08; x01]) connected_client
    client.LIGHTS (client.py_bool true)
  = (client.set_conn connected_client
       (Some (client.sendall fresh_socket
                (on_wire (mkWire COMMAND 0 [x08; x01])))),
     Ok tt)
  /\ forall d,
       parse_any client.Command_pb2_Command [x08; x01] = Some d ->
       client.decode_one parse_any (on_wire (mkWire COMMAND 0 [x08; x01]))
       = Ok (Some (message_of client.Command_pb2_Command COMMAND 0
                     (firstn 4
                        (skipn 4 (on_wire (mkWire COMMAND 0 [x08; x01]))))
                     [x08; x01] d), []).
Proof.
  apply (proj1 (write_command_sends_frame parse_any
                  (fun _ _ => Some [x08; x01]) connected_client fresh_socket
                  client.LIGHTS (client.py_bool true) [x08; x01]
                  eq_refl eq_refl eq_refl)).
  unfold len. simpl. lia.
Defined.

(** ** The UDP probe *)

Lemma udp_probe_loop_passes (recvfrom : nat -> discovery.recvfrom_result)
    (host : string) (response : bytes) (k : nat) :
  forall fuel calls,
    (forall j, (j < k)%nat ->
               passed_over host response (recvfrom (calls + j)%nat)) ->
    discovery.udp_probe_loop recvfrom (k + fuel) host response calls
    = discovery.udp_probe_loop recvfrom fuel host response (calls + k).
Proof.
  induction k as [|k IH]; intros fuel calls Hp.
  - cbn [Nat.add]. now rewrite Nat.add_0_r.
  - cbn [Nat.add discovery.udp_probe_loop].
    pose proof (Hp 0%nat ltac:(lia)) as H0. rewrite Nat.add_0_r in H0.
    unfold passed_over in H0.
    destruct (recvfrom calls) as [data addr| |]; try contradiction.
    rewrite H0, IH.
    + f_equal. lia.
    + intros j Hj. replace (S calls + j)%nat with (calls + S j)%nat by lia.
      apply Hp. lia.
Qed.

(** X24: [udp_probe] passes over every datagram that comes from another
    address or does not start with the expected response; it returns True at
    the first datagram from the probed host that starts with the response,
    and False at the first timeout or connection reset that comes before
    such a datagram. *)
Theorem udp_probe_first_answer (recvfrom : nat -> discovery.recvfrom_result)
    (host : string) (query : bytes) (query_port : Z) (response : bytes)
    (k fuel : nat) :
  (forall j, (j < k)%nat -> passed_over host response (recvfrom j)) ->
  (k < fuel)%nat ->
  (forall data,
      recvfrom k = discovery.datagram data host ->
      discovery.startswith (firstn 1024 data) response = true ->
      discovery.udp_probe recvfrom fuel host query query_port response
      = (S k, Ok true))
  /\ (recvfrom k = discovery.socket_timeout
      \/ recvfrom k = discovery.ConnectionResetError ->
      discovery.udp_probe recvfrom fuel host query query_port response
      = (S k, Ok false)).
Proof.
  intros Hp Hfuel. unfold discovery.udp_probe.
  replace fuel with (k + S (fuel - S k))%nat by lia.
  rewrite (udp_probe_loop_passes recvfrom host response k _ 0%nat Hp).
  cbn [Nat.add discovery.udp_probe_loop]. split.
  - intros data Hd Hs. rewrite Hd, String.eqb_refl, Hs. reflexivity.
  - intros [H|H]; rewrite H; reflexivity.
Qed.

Lemma udp_probe_first_answer_witness :
  discovery.udp_probe other_device_first 5 "192.168.0.7" discovery.QUERY
    discovery.QUERY_PORT discovery.RESPONSE
  = (2%nat, Ok true).
Proof.
  apply (proj1 (udp_probe_first_answer other_device_first "192.168.0.7"
                  discovery.QUERY discovery.QUERY_PORT discovery.RESPONSE
                  1 5
                  ltac:(intros j Hj; assert (j = 0)%nat as -> by lia;
                        reflexivity)
                  ltac:(lia)) discovery.RESPONSE);
    reflexivity.
Defined.
